(** * Little Life: the identification client and the main window

    A shallow embedding of [identify_image.py], [secrets_store.py] and of
    the settings, the camera and the slots of [MainWindow] from [app.py],
    with the properties the design specification states about them and
    further properties of the code.

    Conventions of the embedding.
    - A Python [str] is a [string]; each [ascii] stands for the code point of
      the same number, so the texts covered are those over code points below
      256.  [str.strip], [str.lower] and the other text methods are given
      on that range as CPython defines them.
    - A value decoded from JSON is a [json]; a Python [dict] with text keys
      is a [gmap string json].
    - A call that may raise returns an [outcome].
    - The JSON decoder, the base64 encoder and [os.path.splitext] belong to
      the Python library, and the remote service to the network: they are
      variables of the sections that use them. *)

From Stdlib Require Import ZArith Ascii String List Bool Lia.
From Stdlib Require Import Floats.SpecFloat.
From stdpp Require Import gmap strings list fin_maps pretty.

#[local] Set Warnings "-register-all".
#[local] Open Scope string_scope.

(** ** Python text methods *)

Module PyStr.

Definition LF : ascii := "010"%char.
Definition DQUOTE : ascii := "034"%char.

(** The newline and the double quote as one-character texts. *)
Definition nl : string := String LF "".
Definition dq : string := String DQUOTE "".

(** [ch.isspace()] for a code point below 256: TAB, LF, VT, FF, CR, the
    separators FS, GS, RS, US, the space, NEL and the no-break space. *)
Definition isspace (c : ascii) : bool :=
  let n := nat_of_ascii c in
  (((9 <=? n) && (n <=? 13)) || ((28 <=? n) && (n <=? 32))
   || (n =? 133) || (n =? 160))%nat.

(** [ch.lower()] for a code point below 256: the letters A-Z and the
    accented capitals 192-222 (the multiplication sign 215 apart) move up
    by 32. *)
Definition lower_char (c : ascii) : ascii :=
  let n := nat_of_ascii c in
  if (((65 <=? n) && (n <=? 90))
      || ((192 <=? n) && (n <=? 222) && negb (n =? 215)))%nat
  then ascii_of_nat (n + 32) else c.

Fixpoint lower (s : string) : string :=
  match s with
  | EmptyString => EmptyString
  | String c r => String (lower_char c) (lower r)
  end.

Fixpoint lstrip (s : string) : string :=
  match s with
  | EmptyString => EmptyString
  | String c r => if isspace c then lstrip r else s
  end.

Fixpoint rstrip (s : string) : string :=
  match s with
  | EmptyString => EmptyString
  | String c r =>
      match rstrip r with
      | EmptyString => if isspace c then EmptyString else String c EmptyString
      | r' => String c r'
      end
  end.

Definition strip (s : string) : string := lstrip (rstrip s).

(** [s.startswith(p)] *)
Fixpoint startswith (s p : string) {struct p} : bool :=
  match p with
  | EmptyString => true
  | String a p' =>
      match s with
      | EmptyString => false
      | String b s' => Ascii.eqb a b && startswith s' p'
      end
  end.

(** [s.endswith(p)] *)
Fixpoint endswith (s p : string) : bool :=
  String.eqb s p
  || match s with
     | EmptyString => false
     | String _ r => endswith r p
     end.

(** [c in s] for a one-character text [c]. *)
Fixpoint contains (c : ascii) (s : string) : bool :=
  match s with
  | EmptyString => false
  | String a r => Ascii.eqb a c || contains c r
  end.

(** [s.split(c, 1)]: one piece when [c] does not occur, else the text
    before the first [c] and the text after it. *)
Fixpoint split1 (c : ascii) (s : string) : list string :=
  match s with
  | EmptyString => [EmptyString]
  | String a r =>
      if Ascii.eqb a c then [EmptyString; r]
      else match split1 c r with
           | h :: tl => String a h :: tl
           | [] => []
           end
  end.

(** [s[n:]] *)
Fixpoint slice_from (n : nat) (s : string) : string :=
  match n, s with
  | O, _ => s
  | S _, EmptyString => EmptyString
  | S k, String _ r => slice_from k r
  end.

(** [s[:-n]] for [n > 0] *)
Definition slice_to_neg (n : nat) (s : string) : string :=
  String.substring 0 (String.length s - n) s.

(** [needle in hay] for two texts. *)
Fixpoint occurs_in (needle hay : string) : bool :=
  startswith hay needle
  || match hay with
     | EmptyString => false
     | String _ r => occurs_in needle r
     end.


Fixpoint all_space (s : string) : bool :=
  match s with
  | EmptyString => true
  | String c r => isspace c && all_space r
  end.

(** Truth value of a text, and [x or d] for an optional text [x]. *)
Definition truthy (s : string) : bool := negb (String.eqb s "").

Definition or_else (x : option string) (d : string) : string :=
  match x with
  | Some s => if truthy s then s else d
  | None => d
  end.

End PyStr.

Import PyStr.

(** ** identify_image.py: the context hint *)

Definition hint_pond : string :=
  "Assume a pond/wet mount sample. Consider common freshwater microorganisms "
  ++ "(protozoa, rotifers, algae/diatoms, nematodes, small crustaceans, etc.).".

Definition hint_soil : string :=
  "Assume a soil sample. Consider soil organisms and structures "
  ++ "(mites, nematodes, fungal hyphae/spores, pollen, plant fibers), and mineral grains.".

Definition hint_tissue : string :=
  "Assume a tissue/biological smear. Consider common cell types and structures "
  ++ "(epithelial cells, red/white blood cells if applicable, parasites/eggs, bacteria patterns if visible).".

Definition hint_crystal : string :=
  "Assume a crystal/mineral sample. Consider crystal habit, cleavage, inclusions, and "
  ++ "common salts/minerals that appear under a microscope.".

Definition hint_other : string :=
  "No specific sample context; identify the most likely subject and clearly note uncertainty.".

(** The dict literal [hints]. *)
Definition hints : gmap string string :=
  <["other" := hint_other]>
  (<["crystal" := hint_crystal]>
  (<["tissue" := hint_tissue]>
  (<["soil" := hint_soil]>
  (<["pond" := hint_pond]> ∅)))).

(** [st = (sample_type or "Other").strip().lower()] *)
Definition normalize_sample_type (sample_type : option string) : string :=
  lower (strip (or_else sample_type "Other")).

(** [hints.get(st, hints["other"])]; the key "other" is in the literal. *)
Definition _context_hint (sample_type : option string) : string :=
  let st := normalize_sample_type sample_type in
  default (default "" (hints !! "other")) (hints !! st).

(** The categories and the hints, and the lookup as the specification
    words it: the hint of the category named, the hint of "other" for any
    other name. *)
Definition sample_keys : list string :=
  ["pond"; "soil"; "tissue"; "crystal"; "other"].

Definition all_hints : list string :=
  [hint_pond; hint_soil; hint_tissue; hint_crystal; hint_other].

Definition hint_of_category (k : string) : string :=
  if decide (k = "pond") then hint_pond
  else if decide (k = "soil") then hint_soil
  else if decide (k = "tissue") then hint_tissue
  else if decide (k = "crystal") then hint_crystal
  else hint_other.

(** ** identify_image.py: stripping a code fence *)

Definition FENCE : string := "```".

Definition _strip_code_fence (text : option string) : string :=
  let t := strip (or_else text "") in
  if startswith t FENCE then
    let t := if contains LF t then nth 1 (split1 LF t) "" else "" in
    let t := if endswith (rstrip t) FENCE
             then slice_to_neg 3 (rstrip t) else t in
    let t := strip t in
    if startswith (lower t) "json" then lstrip (slice_from 4 t) else t
  else t.

(** A fenced block as Markdown has it: the opening fence and its tag on a
    line of their own, the body, a line break and the closing fence. *)
Definition fenced (tag body : string) : string :=
  FENCE ++ tag ++ nl ++ body ++ nl ++ FENCE.

(** ** Values, exceptions and outcomes *)

(** What [json.loads] can return: [None], a [bool], an [int], a [float]
    (an IEEE value in the form of the standard library's [spec_float]), a
    [str], a [list] or a [dict]. *)
Inductive json : Type :=
| JNull
| JBool (b : bool)
| JInt (z : Z)
| JFloat (f : spec_float)
| JString (s : string)
| JArray (l : list json)
| JObject (d : gmap string json).

(** The exceptions the modelled code raises itself ([RuntimeError],
    [ValueError]) and those of the calls it makes: [OSError] from [open],
    [APIError] for whatever the client library raises, [cv2.error] and
    [OverflowError] from a binding that cannot convert an argument. *)
Inductive exn : Type :=
| RuntimeError (msg : string)
| ValueError (msg : string)
| OSError (msg : string)
| APIError (msg : string)
| Cv2Error (msg : string)
| OverflowError (msg : string).

Inductive outcome (A : Type) : Type :=
| Returns (a : A)
| Raises (e : exn).

Arguments Returns {A} a.
Arguments Raises {A} e.

#[global] Instance outcome_ret : MRet outcome := fun A a => Returns a.

#[global] Instance outcome_bind : MBind outcome := fun A B k x =>
  match x with
  | Returns a => k a
  | Raises e => Raises e
  end.

(** ** The built-in [int] on a decoded value *)

Module PyInt.

(** The white space [int] skips around a literal: the C white space and,
    above 127, the Unicode spaces (which CPython first maps to a space).
    The separators 28-31 are not skipped. *)
Definition is_int_space (c : ascii) : bool :=
  let n := nat_of_ascii c in
  (((9 <=? n) && (n <=? 13)) || (n =? 32) || (n =? 133) || (n =? 160))%nat.

Definition digit_of (c : ascii) : option Z :=
  let n := nat_of_ascii c in
  if ((48 <=? n) && (n <=? 57))%nat then Some (Z.of_nat n - 48)%Z else None.

Fixpoint skip_int_space (s : string) : string :=
  match s with
  | EmptyString => EmptyString
  | String c r => if is_int_space c then skip_int_space r else s
  end.

(** What the digit scan has just read. *)
Inductive prev_char := AtStart | AfterDigit | AfterUnderscore.

(** The digit scan of [PyLong_FromString] in base ten: digits with
    single underscores between them.  Returns the value, the number of
    digits and the text left; [None] on a leading, doubled or trailing
    underscore and when there is no digit. *)
Fixpoint scan_digits (prev : prev_char) (acc : Z) (digits : nat) (s : string)
  : option (Z * nat * string) :=
  let stop :=
    match prev with
    | AfterDigit => Some (acc, digits, s)
    | AtStart | AfterUnderscore => None
    end in
  match s with
  | EmptyString => stop
  | String c r =>
      match digit_of c with
      | Some d => scan_digits AfterDigit (10 * acc + d)%Z (S digits) r
      | None =>
          if Ascii.eqb c "_"
          then match prev with
               | AfterDigit => scan_digits AfterUnderscore acc digits r
               | AtStart | AfterUnderscore => None
               end
          else stop
      end
  end.

Section Limit.

(** [sys.get_int_max_str_digits()]: 0 when the limit is off or the
    interpreter has none, 4300 by default since CPython 3.11. *)
Variable int_max_str_digits : nat.

(** [int(s)] for a text [s]; [None] stands for [ValueError]. *)
Definition int_of_str (s : string) : option Z :=
  let s := skip_int_space s in
  let '(negative, s) :=
    match s with
    | String "+" r => (false, r)
    | String "-" r => (true, r)
    | _ => (false, s)
    end in
  match scan_digits AtStart 0 0 s with
  | None => None
  | Some (v, digits, rest) =>
      if ((0 <? int_max_str_digits) && (int_max_str_digits <? digits))%nat
      then None
      else match skip_int_space rest with
           | EmptyString => Some (if negative then (- v)%Z else v)
           | String _ _ => None
           end
  end.

(** [int(f)] for a float: the value cut towards zero; [None] stands
    for [ValueError] (a NaN) or [OverflowError] (an infinity). *)
Definition int_of_float (f : spec_float) : option Z :=
  match f with
  | S754_zero _ => Some 0%Z
  | S754_finite s m e =>
      let magnitude := Z.shiftl (Z.pos m) e in
      Some (if s then (- magnitude)%Z else magnitude)
  | S754_infinity _ | S754_nan => None
  end.

(** [int(v)]; [None] stands for the exception raised: [TypeError] for
    [None], a list or a dict. A [bool] is an [int] already. *)
Definition py_int (v : json) : option Z :=
  match v with
  | JInt z => Some z
  | JBool b => Some (if b then 1 else 0)%Z
  | JFloat f => int_of_float f
  | JString s => int_of_str s
  | JNull | JArray _ | JObject _ => None
  end.

End Limit.

End PyInt.

Import PyInt.

(** ** secrets_store.py and the client of identify_image.py *)

Definition OPENAI_API_KEY : string := "OPENAI_API_KEY".

(** Truth value of [os.environ.get(name)]: set and not empty. *)
Definition env_truthy (v : option string) : bool :=
  match v with
  | Some s => truthy s
  | None => false
  end.

(** [secrets_store.get_openai_api_key] over the process environment. *)
Definition get_openai_api_key (environ : gmap string string) : outcome string :=
  let key := environ !! OPENAI_API_KEY in
  match key with
  | Some k =>
      if negb (truthy k)
      then Raises (RuntimeError
             ("OPENAI_API_KEY not set. " ++ "Set it in your shell or launcher script."))
      else Returns k
  | None =>
      Raises (RuntimeError
        ("OPENAI_API_KEY not set. " ++ "Set it in your shell or launcher script."))
  end.

(** The expression [os.environ.get("OPENAI_API_KEY") or get_openai_api_key()]:
    the store is asked only when the variable is unset or empty. *)
Definition resolve_api_key (environ : gmap string string) : outcome string :=
  match environ !! OPENAI_API_KEY with
  | Some k => if truthy k then Returns k else get_openai_api_key environ
  | None => get_openai_api_key environ
  end.

(** The handle [OpenAI(api_key=...)], known here by the key it holds. *)
Record Client : Type := OpenAI { api_key : string }.

(** The globals of the module identify_image: [_client] and [MODEL]. *)
Record Globals : Type := mkGlobals {
  _client : option Client;
  MODEL : string
}.

(** The module as it stands after import: [_client = None] and
    [MODEL = os.getenv("OPENAI_MODEL", "gpt-4.1-mini")]. *)
Definition import_identify_image (environ : gmap string string) : Globals :=
  {| _client := None;
     MODEL := default "gpt-4.1-mini" (environ !! "OPENAI_MODEL") |}.

(** [get_client()]: the result and the globals afterwards. *)
Definition get_client (environ : gmap string string) (g : Globals)
  : outcome Client * Globals :=
  match _client g with
  | Some c => (Returns c, g)
  | None =>
      match resolve_api_key environ with
      | Raises e => (Raises e, g)
      | Returns key =>
          if negb (truthy key)
          then (Raises (RuntimeError
                  "OpenAI API key not set. Set OPENAI_API_KEY (dev) or add a key in the app."),
                g)
          else let c := OpenAI key in
               (Returns c, {| _client := Some c; MODEL := MODEL g |})
      end
  end.

(** The two places a credential is looked for: the environment variable
    (set and not empty) and the secret store (the lookup returns). *)
Definition found_in_environment (environ : gmap string string) : bool :=
  env_truthy (environ !! OPENAI_API_KEY).

Definition found_in_store (environ : gmap string string) : bool :=
  match get_openai_api_key environ with
  | Returns _ => true
  | Raises _ => false
  end.

Definition fails_with_RuntimeError {A : Type} (o : outcome A) : bool :=
  match o with
  | Raises (RuntimeError _) => true
  | _ => false
  end.

(** ** identify_image.py: the request and the reply *)

(** The one user message sent: the model name, the prompt text and the
    image as a data URL. *)
Record Request : Type := mkRequest {
  req_model : string;
  req_text : string;
  req_image_url : string
}.

(** The reply object; [output_text] is [None] when the attribute is
    missing or holds [None]. *)
Record Response : Type := mkResponse { output_text : option string }.

(** What lies outside the program: the environment variables, the files
    ([open(path, "rb").read()], as a text of bytes) and the remote
    service behind [client.responses.create]. *)
Record World : Type := mkWorld {
  environ : gmap string string;
  read_bytes : string -> outcome string;
  responses_create : Client -> Request -> outcome Response
}.

Definition setdefault (k : string) (v : json) (d : gmap string json)
  : gmap string json :=
  match d !! k with
  | Some _ => d
  | None => <[k := v]> d
  end.

(** [max(0, min(100, x))] *)
Definition clamp (x : Z) : Z := Z.max 0 (Z.min 100 x).

Section IdentifyImage.

(** The Python library: [json.loads] ([None] when it raises),
    [os.path.splitext(p)[1]], [base64.b64encode(b).decode("utf-8")] and
    the digit limit of [int]. *)
Variable json_loads : string -> option json.
Variable splitext_ext : string -> string.
Variable b64encode : string -> string.
Variable int_max_str_digits : nat.

Definition _b64_data_url (w : World) (image_path : string) : outcome string :=
  let ext := lower (splitext_ext image_path) in
  let mime := if String.eqb ext ".png" then "image/png" else "image/jpeg" in
  f ← read_bytes w image_path;
  let b64 := b64encode f in
  mret ("data:" ++ mime ++ ";base64," ++ b64).

Definition prompt_for (context : string) : string :=
  "You are helping identify microorganisms from microscope photos." ++ nl
  ++ "Context: " ++ context ++ nl ++ nl
  ++ "Return ONLY valid JSON with exactly these keys:" ++ nl
  ++ "best_guess_name (string), confidence (integer 0-100), "
  ++ "description (string), features_used (string)." ++ nl
  ++ "Be cautious: if unsure, lower confidence." ++ nl.

(** The four [setdefault] calls, then the coercion and the clamp of
    [result["confidence"]].  The key is present after [setdefault], and
    the second read of it is the integer just stored. *)
Definition sanitize (result : gmap string json) : gmap string json :=
  let result := setdefault "best_guess_name" (JString "Unknown") result in
  let result := setdefault "confidence" (JInt 0) result in
  let result := setdefault "description" (JString "") result in
  let result := setdefault "features_used" (JString "") result in
  let confidence :=
    match result !! "confidence" ≫= py_int int_max_str_digits with
    | Some z => z
    | None => 0%Z
    end in
  let result := <["confidence" := JInt confidence]> result in
  <["confidence" := JInt (clamp confidence)]> result.

(** [text = _strip_code_fence(getattr(resp, "output_text", "") or "")] *)
Definition cleaned_text (resp : Response) : string :=
  _strip_code_fence (Some (or_else (output_text resp) "")).

(** From the reply on: fence stripping, decoding, the two format
    errors, and the sanitized dict. *)
Definition interpret_reply (resp : Response) : outcome (gmap string json) :=
  let text := cleaned_text resp in
  match json_loads text with
  | None => Raises (ValueError ("Model did not return JSON. Got:" ++ nl ++ text))
  | Some (JObject result) => Returns (sanitize result)
  | Some _ => Raises (ValueError ("Model returned non-dict JSON. Got:" ++ nl ++ text))
  end.

(** What [identify_image] does up to the call of the remote service:
    the client, the data URL, the hint and the prompt, the request. *)
Definition ask_model (w : World) (g : Globals)
    (image_path : string) (sample_type : option string)
  : outcome Response * Globals :=
  let '(client, g) := get_client (environ w) g in
  (client ← client;
   data_url ← _b64_data_url w image_path;
   let context := _context_hint sample_type in
   let prompt := prompt_for context in
   responses_create w client
     {| req_model := MODEL g; req_text := prompt; req_image_url := data_url |},
   g).

(** [identify_image(image_path, sample_type)]: the result and the
    globals afterwards. *)
Definition identify_image (w : World) (g : Globals)
    (image_path : string) (sample_type : option string)
  : outcome (gmap string json) * Globals :=
  let '(resp, g) := ask_model w g image_path sample_type in
  (resp ≫= interpret_reply, g).

End IdentifyImage.

(** The four keys and their defaults as the specification lists them. *)
Definition expected_keys : list string :=
  ["best_guess_name"; "confidence"; "description"; "features_used"].

Definition DEFAULTS : gmap string json :=
  <["best_guess_name" := JString "Unknown"]>
  (<["confidence" := JInt 0]>
  (<["description" := JString ""]>
  (<["features_used" := JString ""]> ∅))).

(** [int(v)] under [try], with 0 in the [except] branch; and the
    confidence [sanitize] stores for a decoded object, 0 for a missing
    key. *)
Definition int_or_zero (lim : nat) (v : json) : Z := default 0%Z (py_int lim v).

Definition confidence_of (lim : nat) (d : gmap string json) : Z :=
  match d !! "confidence" with
  | Some v => clamp (int_or_zero lim v)
  | None => 0%Z
  end.


(** ** app.py: the capture action of the main window *)

Section Capture.

(** A camera frame (an OpenCV array), opaque here. *)
Variable Frame : Type.

(** The fields of [MainWindow] that [on_capture] reads or writes; a
    widget is known by the text it shows or by its enabled flag.  (The
    dash of the labels lies above 255 and stands here as its three UTF-8
    bytes.) *)
Record MainWindow : Type := mkMainWindow {
  camera_enabled : bool;
  last_frame : option Frame;
  current_image_path : option string;
  temp_files : list string;
  status_message : string;
  loaded_path_label : string;
  identify_btn_enabled : bool;
  result_label : string;
  conf_label : string;
  notes : string
}.

Definition showMessage (msg : string) (w : MainWindow) : MainWindow :=
  {| camera_enabled := camera_enabled w;
     last_frame := last_frame w;
     current_image_path := current_image_path w;
     temp_files := temp_files w;
     status_message := msg;
     loaded_path_label := loaded_path_label w;
     identify_btn_enabled := identify_btn_enabled w;
     result_label := result_label w;
     conf_label := conf_label w;
     notes := notes w |}.

(** The calls made to [cv2.imwrite] so far: path and frame. *)
Definition Writes : Type := list (string * Frame).

(** [tempfile.NamedTemporaryFile(delete=False, suffix=".jpg")] followed
    by [close()]: the name of the new file, or the exception raised;
    and [cv2.imwrite], whose result the code ignores. *)
Variable NamedTemporaryFile : string -> outcome string.
Variable imwrite : string -> Frame -> outcome bool.

(** [on_capture()]: whether the call returned or raised, the window
    afterwards and the images written. *)
Definition on_capture (w : MainWindow) (written : Writes)
  : outcome unit * MainWindow * Writes :=
  if negb (camera_enabled w) then
    (Returns tt, showMessage "Camera disabled." w, written)
  else
    match last_frame w with
    | None => (Returns tt, showMessage "No camera frame yet." w, written)
    | Some frame =>
        match NamedTemporaryFile ".jpg" with
        | Raises e => (Raises e, w, written)
        | Returns tmp_path =>
            let w :=
              {| camera_enabled := camera_enabled w;
                 last_frame := last_frame w;
                 current_image_path := current_image_path w;
                 temp_files := (temp_files w ++ [tmp_path])%list;
                 status_message := status_message w;
                 loaded_path_label := loaded_path_label w;
                 identify_btn_enabled := identify_btn_enabled w;
                 result_label := result_label w;
                 conf_label := conf_label w;
                 notes := notes w |} in
            match imwrite tmp_path frame with
            | Raises e => (Raises e, w, written)
            | Returns _ =>
                (Returns tt,
                 {| camera_enabled := camera_enabled w;
                    last_frame := last_frame w;
                    current_image_path := Some tmp_path;
                    temp_files := temp_files w;
                    status_message := "Captured frame. Ready to identify.";
                    loaded_path_label := tmp_path;
                    identify_btn_enabled := true;
                    result_label := "—";
                    conf_label := "Confidence: —";
                    notes := "" |},
                 (written ++ [(tmp_path, frame)])%list)
            end
        end
    end.

End Capture.

Arguments mkMainWindow {Frame}.
Arguments camera_enabled {Frame}.
Arguments last_frame {Frame}.
Arguments current_image_path {Frame}.
Arguments temp_files {Frame}.
Arguments status_message {Frame}.
Arguments loaded_path_label {Frame}.
Arguments identify_btn_enabled {Frame}.
Arguments result_label {Frame}.
Arguments conf_label {Frame}.
Arguments notes {Frame}.
Arguments showMessage {Frame}.
Arguments on_capture {Frame}.

(** ** A decoder for JSON texts

    The theorems below hold for any [json_loads].  The decoder of this
    module is one to run them with: a scanner that reads the text one
    character at a time into tokens, and a parser of the tokens.  It
    follows the grammar of Python's [json] module: white space is the
    space, TAB, LF and CR; [NaN], [Infinity] and [-Infinity] are read;
    control characters are refused inside a string; a repeated key keeps
    its last value.  An escape that names a code point of 256 or more has
    no counterpart in [string] and is refused. *)

Module Decoder.

Inductive token : Type :=
| TLBrace | TRBrace | TLBracket | TRBracket | TColon | TComma
| TString (s : string)
| TAtom (v : json).

(** The decimal [m * 10^e] (with [m > 0], else a zero) as the nearest
    binary64 value, ties to even. *)
Definition float_of_decimal (negative : bool) (m e : Z) : spec_float :=
  match m with
  | Z.pos p =>
      if (0 <=? e)%Z
      then binary_normalize 53 1024
             (if negative then Z.neg p * 10 ^ e else Z.pos p * 10 ^ e)%Z 0 negative
      else match (10 ^ (- e))%Z with
           | Z.pos q =>
               SFdiv 53 1024 (S754_finite negative p 0) (S754_finite false q 0)
           | _ => S754_nan
           end
  | _ => S754_zero negative
  end.

(** The words of the grammar: true, false, null, NaN and Infinity (the
    latter also after a minus sign). *)
Inductive literal : Type :=
| LTrue | LFalse | LNull | LNaN | LInfinity (neg : bool).

Definition literal_text (l : literal) : string :=
  match l with
  | LTrue => "true"
  | LFalse => "false"
  | LNull => "null"
  | LNaN => "NaN"
  | LInfinity _ => "Infinity"
  end.

Definition literal_value (l : literal) : json :=
  match l with
  | LTrue => JBool true
  | LFalse => JBool false
  | LNull => JNull
  | LNaN => JFloat S754_nan
  | LInfinity neg => JFloat (S754_infinity neg)
  end.

(** Where the scanner stands. *)
Inductive state : Type :=
| Idle
| InStr (acc : string)                 (* inside a string *)
| InEsc (acc : string)                 (* after a backslash *)
| InHex (acc : string) (n : nat) (v : nat)   (* after \u and n hex digits *)
| InLit (l : literal) (n : nat)        (* after n characters of a word *)
| NSign                                (* after a minus sign *)
| NZero (neg : bool)                   (* the integer part 0 *)
| NInt (neg : bool) (v : Z)            (* integer digits *)
| NDot (neg : bool) (m : Z)            (* after the point *)
| NFrac (neg : bool) (m : Z) (k : Z)   (* k fraction digits *)
| NE (neg : bool) (m : Z) (k : Z)      (* after e or E *)
| NESign (neg : bool) (m : Z) (k : Z) (eneg : bool)
| NExp (neg : bool) (m : Z) (k : Z) (eneg : bool) (ev : Z).

Definition is_json_space (c : ascii) : bool :=
  let n := nat_of_ascii c in
  ((n =? 32) || (n =? 9) || (n =? 10) || (n =? 13))%nat.

Definition hex_of (c : ascii) : option nat :=
  let n := nat_of_ascii c in
  if ((48 <=? n) && (n <=? 57))%nat then Some (n - 48)
  else if ((65 <=? n) && (n <=? 70))%nat then Some (n - 55)
  else if ((97 <=? n) && (n <=? 102))%nat then Some (n - 87)
  else None.

Definition snoc (s : string) (c : ascii) : string := s ++ String c "".

Definition signed (neg : bool) (v : Z) : Z := if neg then (- v)%Z else v.

(** A character met between tokens. *)
Definition step_idle (c : ascii) : option (list token * state) :=
  if is_json_space c then Some ([], Idle)
  else match digit_of c with
  | Some 0%Z => Some ([], NZero false)
  | Some d => Some ([], NInt false d)
  | None =>
      match c with
      | "{"%char => Some ([TLBrace], Idle)
      | "}"%char => Some ([TRBrace], Idle)
      | "["%char => Some ([TLBracket], Idle)
      | "]"%char => Some ([TRBracket], Idle)
      | ":"%char => Some ([TColon], Idle)
      | ","%char => Some ([TComma], Idle)
      | "034"%char => Some ([], InStr "")
      | "-"%char => Some ([], NSign)
      | "t"%char => Some ([], InLit LTrue 1)
      | "f"%char => Some ([], InLit LFalse 1)
      | "n"%char => Some ([], InLit LNull 1)
      | "N"%char => Some ([], InLit LNaN 1)
      | "I"%char => Some ([], InLit (LInfinity false) 1)
      | _ => None
      end
  end.

(** A number is over: its token, then the character that ended it. *)
Definition end_number (v : json) (c : ascii) : option (list token * state) :=
  '(ts, st) ← step_idle c; Some (TAtom v :: ts, st).

Definition float_token (neg : bool) (m k : Z) (eneg : bool) (ev : Z) : json :=
  JFloat (float_of_decimal neg m (signed eneg ev - k)).

Definition is_e (c : ascii) : bool := Ascii.eqb c "e" || Ascii.eqb c "E".

Definition step (st : state) (c : ascii) : option (list token * state) :=
  match st with
  | Idle => step_idle c
  | InStr acc =>
      if Ascii.eqb c "034" then Some ([TString acc], Idle)
      else if Ascii.eqb c "\" then Some ([], InEsc acc)
      else if (nat_of_ascii c <? 32)%nat then None
      else Some ([], InStr (snoc acc c))
  | InEsc acc =>
      match c with
      | "034"%char | "\"%char | "/"%char => Some ([], InStr (snoc acc c))
      | "b"%char => Some ([], InStr (snoc acc "008"))
      | "f"%char => Some ([], InStr (snoc acc "012"))
      | "n"%char => Some ([], InStr (snoc acc "010"))
      | "r"%char => Some ([], InStr (snoc acc "013"))
      | "t"%char => Some ([], InStr (snoc acc "009"))
      | "u"%char => Some ([], InHex acc 0 0)
      | _ => None
      end
  | InHex acc n v =>
      match hex_of c with
      | Some h =>
          let v := (16 * v + h)%nat in
          if (n =? 3)%nat
          then if (v <? 256)%nat then Some ([], InStr (snoc acc (ascii_of_nat v)))
               else None
          else Some ([], InHex acc (S n) v)
      | None => None
      end
  | InLit l n =>
      match String.get n (literal_text l) with
      | Some e =>
          if Ascii.eqb c e
          then if (S n =? String.length (literal_text l))%nat
               then Some ([TAtom (literal_value l)], Idle)
               else Some ([], InLit l (S n))
          else None
      | None => None
      end
  | NSign =>
      match digit_of c with
      | Some 0%Z => Some ([], NZero true)
      | Some d => Some ([], NInt true d)
      | None =>
          if Ascii.eqb c "I" then Some ([], InLit (LInfinity true) 1) else None
      end
  | NZero neg =>
      if Ascii.eqb c "." then Some ([], NDot neg 0)
      else if is_e c then Some ([], NE neg 0 0)
      else end_number (JInt 0) c
  | NInt neg v =>
      match digit_of c with
      | Some d => Some ([], NInt neg (10 * v + d))
      | None =>
          if Ascii.eqb c "." then Some ([], NDot neg v)
          else if is_e c then Some ([], NE neg v 0)
          else end_number (JInt (signed neg v)) c
      end
  | NDot neg m =>
      match digit_of c with
      | Some d => Some ([], NFrac neg (10 * m + d) 1)
      | None => None
      end
  | NFrac neg m k =>
      match digit_of c with
      | Some d => Some ([], NFrac neg (10 * m + d) (k + 1))
      | None =>
          if is_e c then Some ([], NE neg m k)
          else end_number (float_token neg m k false 0) c
      end
  | NE neg m k =>
      match digit_of c with
      | Some d => Some ([], NExp neg m k false d)
      | None =>
          if Ascii.eqb c "+" then Some ([], NESign neg m k false)
          else if Ascii.eqb c "-" then Some ([], NESign neg m k true)
          else None
      end
  | NESign neg m k eneg =>
      match digit_of c with
      | Some d => Some ([], NExp neg m k eneg d)
      | None => None
      end
  | NExp neg m k eneg ev =>
      match digit_of c with
      | Some d => Some ([], NExp neg m k eneg (10 * ev + d))
      | None => end_number (float_token neg m k eneg ev) c
      end
  end.

(** The end of the text: only between tokens or at the end of a
    number. *)
Definition finish (st : state) : option (list token) :=
  match st with
  | Idle => Some []
  | NZero neg => Some [TAtom (JInt 0)]
  | NInt neg v => Some [TAtom (JInt (signed neg v))]
  | NFrac neg m k => Some [TAtom (float_token neg m k false 0)]
  | NExp neg m k eneg ev => Some [TAtom (float_token neg m k eneg ev)]
  | _ => None
  end.

Fixpoint scan (st : state) (s : string) : option (list token) :=
  match s with
  | EmptyString => finish st
  | String c r =>
      '(ts, st') ← step st c;
      rest ← scan st' r;
      Some (ts ++ rest)%list
  end.

(** The parser: a value, the elements of an array after its bracket,
    the members of an object after its brace. *)
Fixpoint parse_value (fuel : nat) (ts : list token) : option (json * list token) :=
  match fuel with
  | O => None
  | S fuel =>
      match ts with
      | TAtom v :: r => Some (v, r)
      | TString s :: r => Some (JString s, r)
      | TLBracket :: TRBracket :: r => Some (JArray [], r)
      | TLBracket :: r => parse_elements fuel r []
      | TLBrace :: TRBrace :: r => Some (JObject ∅, r)
      | TLBrace :: r => parse_members fuel r ∅
      | _ => None
      end
  end
with parse_elements (fuel : nat) (ts : list token) (acc : list json)
  : option (json * list token) :=
  match fuel with
  | O => None
  | S fuel =>
      match parse_value fuel ts with
      | Some (v, TComma :: r) => parse_elements fuel r (acc ++ [v])%list
      | Some (v, TRBracket :: r) => Some (JArray (acc ++ [v])%list, r)
      | _ => None
      end
  end
with parse_members (fuel : nat) (ts : list token) (acc : gmap string json)
  : option (json * list token) :=
  match fuel with
  | O => None
  | S fuel =>
      match ts with
      | TString k :: TColon :: r =>
          match parse_value fuel r with
          | Some (v, TComma :: r') => parse_members fuel r' (<[k := v]> acc)
          | Some (v, TRBrace :: r') => Some (JObject (<[k := v]> acc), r')
          | _ => None
          end
      | _ => None
      end
  end.

(** The whole text must be one value. *)
Definition json_decode (s : string) : option json :=
  ts ← scan Idle s;
  match parse_value (S (length ts)) ts with
  | Some (v, []) => Some v
  | _ => None
  end.

End Decoder.

(** ** app.py: settings read from the environment *)

(** The set literal of [_env_bool]. *)
Definition FALSE_WORDS : gset string :=
  {["0"; "false"; "no"; "off"; ""]}.

(** [_env_bool(name, default)] *)
Definition _env_bool (environ : gmap string string) (name : string)
    (default : bool) : bool :=
  match environ !! name with
  | None => default
  | Some v => bool_decide (lower (strip v) ∉ FALSE_WORDS)
  end.

(** The backend constants of the OpenCV build at hand; [None] where the
    build has no such attribute, which [getattr(cv2, ..., 0)] turns
    into 0. *)
Record Cv2 : Type := mkCv2 {
  CAP_V4L2 : option Z;
  CAP_AVFOUNDATION : option Z;
  CAP_DSHOW : option Z;
  CAP_MSMF : option Z
}.

(** The dict literal [backend_map] of [choose_opencv_backend]. *)
Definition backend_map (cv2 : Cv2) : gmap string Z :=
  <["msmf" := default 0%Z (CAP_MSMF cv2)]>
  (<["dshow" := default 0%Z (CAP_DSHOW cv2)]>
  (<["avfoundation" := default 0%Z (CAP_AVFOUNDATION cv2)]>
  (<["v4l2" := default 0%Z (CAP_V4L2 cv2)]>
  (<["auto" := 0%Z]> ∅)))).

(** [choose_opencv_backend()], over the environment, the OpenCV build and
    [sys.platform]. *)
Definition choose_opencv_backend (environ : gmap string string) (cv2 : Cv2)
    (platform : string) : Z :=
  let pref :=
    lower (strip (or_else (Some (default "auto" (environ !! "CAMERA_BACKEND")))
                    "auto")) in
  match backend_map cv2 !! pref with
  | Some backend => backend
  | None =>
      if startswith platform "linux"
      then default 0%Z (backend_map cv2 !! "v4l2")
      else if String.eqb platform "darwin"
      then default 0%Z (backend_map cv2 !! "avfoundation")
      else 0%Z
  end.

(** ** app.py: identification from the window *)

(** [str(e)] for an exception: its message. *)
Definition exn_message (e : exn) : string :=
  match e with
  | RuntimeError msg | ValueError msg | OSError msg | APIError msg
  | Cv2Error msg | OverflowError msg => msg
  end.

(** What the worker thread was started with. *)
Record Job : Type := mkJob {
  job_image_path : string;
  job_sample_type : string
}.

(** The two signals of [WorkerSignals]. *)
Inductive Signal : Type :=
| success (result : gmap string json)
| error (message : string).

Section Identify.

Variable Frame : Type.

(** [on_identify()]: the window afterwards and the job of the thread
    started, if one is.  [currentText] is what the sample combo box
    shows.  (The dots of the status lie above 255 and stand as their
    UTF-8 bytes.) *)
Definition on_identify (currentText : string) (w : MainWindow Frame)
  : MainWindow Frame * option Job :=
  if negb (env_truthy (current_image_path w)) then
    (showMessage "No image selected." w, None)
  else
    (showMessage "Identifying…"
       {| camera_enabled := camera_enabled w;
          last_frame := last_frame w;
          current_image_path := current_image_path w;
          temp_files := temp_files w;
          status_message := status_message w;
          loaded_path_label := loaded_path_label w;
          identify_btn_enabled := false;
          result_label := result_label w;
          conf_label := conf_label w;
          notes := notes w |},
     Some {| job_image_path := default "" (current_image_path w);
             job_sample_type := currentText |}).

(** [_on_identify_error(message)] *)
Definition _on_identify_error (message : string) (w : MainWindow Frame)
  : MainWindow Frame :=
  {| camera_enabled := camera_enabled w;
     last_frame := last_frame w;
     current_image_path := current_image_path w;
     temp_files := temp_files w;
     status_message := "Failed.";
     loaded_path_label := loaded_path_label w;
     identify_btn_enabled := true;
     result_label := result_label w;
     conf_label := conf_label w;
     notes := "Error:" ++ nl ++ message |}.

(** The libraries behind [_on_identify_success]: what [QLabel.setText]
    shows for its argument ([None] where it raises [TypeError], for an
    argument it does not take), and how an f-string formats a value. *)
Variable setText_value : json -> option string.
Variable format_value : json -> string.

(** [_on_identify_success(result)]: whether the slot returned ([None]
    when the [TypeError] ended it), and the window afterwards. *)
Definition _on_identify_success (result : gmap string json)
    (w : MainWindow Frame) : option unit * MainWindow Frame :=
  match setText_value
          (default (JString "Unknown") (result !! "best_guess_name")) with
  | None => (None, w)
  | Some name =>
      (Some tt,
       {| camera_enabled := camera_enabled w;
          last_frame := last_frame w;
          current_image_path := current_image_path w;
          temp_files := temp_files w;
          status_message := "Done.";
          loaded_path_label := loaded_path_label w;
          identify_btn_enabled := true;
          result_label := name;
          conf_label :=
            "Confidence: "
            ++ format_value (default (JInt 0) (result !! "confidence"))
            ++ "/100";
          notes :=
            format_value (default (JString "") (result !! "description"))
            ++ nl ++ nl ++ "Features used:" ++ nl
            ++ format_value (default (JString "") (result !! "features_used")) |})
  end.

(** The delivery of a signal to the slot connected to it. *)
Definition deliver (s : Signal) (w : MainWindow Frame)
  : option unit * MainWindow Frame :=
  match s with
  | success result => _on_identify_success result w
  | error message => (Some tt, _on_identify_error message w)
  end.

End Identify.

Arguments on_identify {Frame}.
Arguments _on_identify_error {Frame}.
Arguments _on_identify_success {Frame}.
Arguments deliver {Frame}.

(** The function [run] of [on_identify], the body of the worker thread:
    the signal it emits and the module globals afterwards. *)
Definition run (json_loads : string -> option json)
    (splitext_ext b64encode : string -> string) (int_max_str_digits : nat)
    (w : World) (g : Globals) (job : Job) : Signal * Globals :=
  match identify_image json_loads splitext_ext b64encode int_max_str_digits
          w g (job_image_path job) (Some (job_sample_type job)) with
  | (Returns result, g) => (success result, g)
  | (Raises e, g) => (error (exn_message e), g)
  end.

(** ** app.py: the camera, the file dialog and the close of the window *)

(** A handle [cv2.VideoCapture(index)] or [cv2.VideoCapture(index, api)],
    known by what it was made with. *)
Record Cap : Type := mkCap {
  cap_index : Z;
  cap_api : option Z
}.

(** The calls made on the capture device, oldest first. *)
Inductive DeviceCall : Type :=
| CallOpen (c : Cap)
| CallRelease (c : Cap)
| CallSet (c : Cap) (prop : string) (value : Z).

(** What the bindings take of a Python [int]: a C [int] for the index of
    [cv2.VideoCapture] and the interval of [QTimer.start], a C [double]
    for the value of [cap.set].  The conversion to [double] rounds to the
    nearest, so it fails from 2^1024 - 2^970 on. *)
Definition in_c_int (z : Z) : bool :=
  (-2147483648 <=? z)%Z && (z <=? 2147483647)%Z.

Definition fits_double (z : Z) : bool :=
  (Z.abs z <? 2 ^ 1024 - 2 ^ 970)%Z.

Section Camera.

Variable Frame : Type.

(** What the image label shows: a text, a camera frame or the picture
    of a file. *)
Inductive Preview : Type :=
| PreviewText (s : string)
| PreviewFrame (f : Frame)
| PreviewFile (path : string).

(** The window with the state the camera methods add to the fields of
    [on_capture]: the handle [cap], the interval of the poll timer
    ([None] while it is stopped), the Capture button, the image label,
    the four camera settings, and the device calls made so far. *)
Record App : Type := mkApp {
  window : MainWindow Frame;
  cap : option Cap;
  timer_interval : option Z;
  capture_btn_enabled : bool;
  image_label : Preview;
  camera_index : Z;
  camera_width : Z;
  camera_height : Z;
  camera_timer_ms : Z;
  device_calls : list DeviceCall
}.

Definition set_window (w : MainWindow Frame) (a : App) : App :=
  {| window := w; cap := cap a; timer_interval := timer_interval a;
     capture_btn_enabled := capture_btn_enabled a;
     image_label := image_label a; camera_index := camera_index a;
     camera_width := camera_width a; camera_height := camera_height a;
     camera_timer_ms := camera_timer_ms a; device_calls := device_calls a |}.

Definition set_cap (c : option Cap) (a : App) : App :=
  {| window := window a; cap := c; timer_interval := timer_interval a;
     capture_btn_enabled := capture_btn_enabled a;
     image_label := image_label a; camera_index := camera_index a;
     camera_width := camera_width a; camera_height := camera_height a;
     camera_timer_ms := camera_timer_ms a; device_calls := device_calls a |}.

Definition set_timer (t : option Z) (a : App) : App :=
  {| window := window a; cap := cap a; timer_interval := t;
     capture_btn_enabled := capture_btn_enabled a;
     image_label := image_label a; camera_index := camera_index a;
     camera_width := camera_width a; camera_height := camera_height a;
     camera_timer_ms := camera_timer_ms a; device_calls := device_calls a |}.

Definition set_capture_btn (b : bool) (a : App) : App :=
  {| window := window a; cap := cap a; timer_interval := timer_interval a;
     capture_btn_enabled := b;
     image_label := image_label a; camera_index := camera_index a;
     camera_width := camera_width a; camera_height := camera_height a;
     camera_timer_ms := camera_timer_ms a; device_calls := device_calls a |}.

Definition set_image_label (p : Preview) (a : App) : App :=
  {| window := window a; cap := cap a; timer_interval := timer_interval a;
     capture_btn_enabled := capture_btn_enabled a;
     image_label := p; camera_index := camera_index a;
     camera_width := camera_width a; camera_height := camera_height a;
     camera_timer_ms := camera_timer_ms a; device_calls := device_calls a |}.

Definition call (c : DeviceCall) (a : App) : App :=
  {| window := window a; cap := cap a; timer_interval := timer_interval a;
     capture_btn_enabled := capture_btn_enabled a;
     image_label := image_label a; camera_index := camera_index a;
     camera_width := camera_width a; camera_height := camera_height a;
     camera_timer_ms := camera_timer_ms a;
     device_calls := (device_calls a ++ [c])%list |}.

Definition status (msg : string) (a : App) : App :=
  set_window (showMessage msg (window a)) a.

Definition set_last_frame (f : option Frame) (w : MainWindow Frame)
  : MainWindow Frame :=
  {| camera_enabled := camera_enabled w;
     last_frame := f;
     current_image_path := current_image_path w;
     temp_files := temp_files w;
     status_message := status_message w;
     loaded_path_label := loaded_path_label w;
     identify_btn_enabled := identify_btn_enabled w;
     result_label := result_label w;
     conf_label := conf_label w;
     notes := notes w |}.

(** The world of the camera: the environment, the OpenCV build (its
    backend constants are C enumeration values), the platform, and
    whether the device opens for a handle ([isOpened()] right after the
    handle is made); then the text of the [cv2.error] raised for an index
    that is no C [int], and the exceptions raised for a size that is no
    C [double] and for an interval that is no C [int]. *)
Variable environ : gmap string string.
Variable cv2 : Cv2.
Variable platform : string.
Variable isOpened : Cap -> bool.
Variable cv2_error_message : Z -> string.
Variable set_error : Z -> exn.
Variable timer_error : Z -> exn.

(** [cv2.VideoCapture(index)] and [cv2.VideoCapture(index, api)]: the
    handle, or the exception of an index that does not convert. *)
Definition VideoCapture (index : Z) (api : option Z) : outcome Cap :=
  if in_c_int index then Returns (mkCap index api)
  else Raises (Cv2Error (cv2_error_message index)).

(** [cap.set(prop, value)] as far as the window sees it. *)
Definition cap_set (c : Cap) (prop : string) (value : Z) : outcome unit :=
  if fits_double value then Returns tt else Raises (set_error value).

(** [self.timer.start(ms)] as far as raising goes. *)
Definition timer_start (ms : Z) : outcome unit :=
  if in_c_int ms then Returns tt else Raises (timer_error ms).

(** [_start_camera()]: what the call does, returning or raising, and
    the window as the call leaves it.  A [release()] that raises is
    passed over by the code, so the call is recorded either way.  A
    handle is stored, and its making recorded, when the constructor has
    returned; a [set] is recorded when it has returned.  The reads of the
    size and the rate in use and the line printed from them leave the
    window as it is and are not recorded; they are taken to return, the
    device reporting finite numbers. *)
Definition _start_camera (a : App) : outcome unit * App :=
  let a :=
    match cap a with
    | Some c => set_cap None (call (CallRelease c) a)
    | None => a
    end in
  let backend := choose_opencv_backend environ cv2 platform in
  let made : outcome Cap * App :=
    if negb (backend =? 0)%Z then
      match VideoCapture (camera_index a) (Some backend) with
      | Raises e => (Raises e, a)
      | Returns c =>
          let a := set_cap (Some c) (call (CallOpen c) a) in
          if negb (isOpened c) then
            let a := call (CallRelease c) a in
            match VideoCapture (camera_index a) None with
            | Raises e => (Raises e, a)
            | Returns c => (Returns c, set_cap (Some c) (call (CallOpen c) a))
            end
          else (Returns c, a)
      end
    else
      match VideoCapture (camera_index a) None with
      | Raises e => (Raises e, a)
      | Returns c => (Returns c, set_cap (Some c) (call (CallOpen c) a))
      end in
  match made with
  | (Raises e, a) => (Raises e, a)
  | (Returns c, a) =>
      if negb (isOpened c) then
        (Returns tt,
         set_capture_btn false
           (status ("Camera " ++ pretty (camera_index a) ++ " not available.") a))
      else
        match cap_set c "CAP_PROP_FRAME_WIDTH" (camera_width a) with
        | Raises e => (Raises e, a)
        | Returns _ =>
            let a := call (CallSet c "CAP_PROP_FRAME_WIDTH" (camera_width a)) a in
            match cap_set c "CAP_PROP_FRAME_HEIGHT" (camera_height a) with
            | Raises e => (Raises e, a)
            | Returns _ =>
                let a :=
                  call (CallSet c "CAP_PROP_FRAME_HEIGHT" (camera_height a)) a in
                match timer_start (camera_timer_ms a) with
                | Raises e => (Raises e, a)
                | Returns _ =>
                    let a := set_timer (Some (camera_timer_ms a)) a in
                    (Returns tt,
                     status ("Live camera running (index "
                             ++ pretty (camera_index a) ++ ").") a)
                end
            end
        end
  end.

(** [qpixmap_from_bgr(frame)] may raise on a frame OpenCV cannot
    convert. *)
Variable qpixmap_from_bgr : Frame -> outcome unit.

(** [_update_camera_frame()], the slot of the poll timer; [read] is
    what [cap.read()] returns at this tick. *)
Definition _update_camera_frame (read : Cap -> bool * option Frame) (a : App)
  : outcome unit * App :=
  match cap a with
  | None => (Returns tt, a)
  | Some c =>
      match read c with
      | (true, Some frame) =>
          let a := set_window (set_last_frame (Some frame) (window a)) a in
          match qpixmap_from_bgr frame with
          | Raises e => (Raises e, a)
          | Returns _ => (Returns tt, set_image_label (PreviewFrame frame) a)
          end
      | _ => (Returns tt, a)
      end
  end.

(** [QPixmap(file_path).isNull()] *)
Variable pixmap_is_null : string -> bool.

(** [on_load_image()]; [file_path] is what the file dialog returns, the
    empty text when it is cancelled. *)
Definition on_load_image (file_path : string) (a : App) : App :=
  if negb (truthy file_path) then a
  else
    let a := if camera_enabled (window a) then set_timer None a else a in
    let a :=
      set_image_label
        (if pixmap_is_null file_path
         then PreviewText "Could not load image preview."
         else PreviewFile file_path) a in
    let w := window a in
    set_window
      {| camera_enabled := camera_enabled w;
         last_frame := last_frame w;
         current_image_path := Some file_path;
         temp_files := temp_files w;
         status_message := "Image loaded. Ready to identify.";
         loaded_path_label := file_path;
         identify_btn_enabled := true;
         result_label := "—";
         conf_label := "Confidence: —";
         notes := "" |} a.

(** [os.unlink(path)] on the set of the files that exist: the set
    afterwards, or the exception raised (the set is then as before). *)
Variable unlink : string -> gset string -> outcome (gset string).

(** The loop of [closeEvent]: each path is unlinked, an exception is
    passed over. *)
Fixpoint unlink_all (paths : list string) (files : gset string) : gset string :=
  match paths with
  | [] => files
  | p :: rest =>
      unlink_all rest
        match unlink p files with
        | Returns files' => files'
        | Raises _ => files
        end
  end.

(** [closeEvent(event)]: the window and the files afterwards. *)
Definition closeEvent (a : App) (files : gset string) : App * gset string :=
  let files := unlink_all (temp_files (window a)) files in
  let a := set_timer None a in
  let a :=
    match cap a with
    | Some c => call (CallRelease c) a
    | None => a
    end in
  (a, files).

(** The capture action on the whole window. *)
Definition capture (NamedTemporaryFile : string -> outcome string)
    (imwrite : string -> Frame -> outcome bool)
    (a : App) (written : list (string * Frame))
  : outcome unit * App * list (string * Frame) :=
  let '(r, w, written) := on_capture NamedTemporaryFile imwrite (window a) written in
  (r, set_window w a, written).

(** [int(os.getenv(name, default))]; the message of the [ValueError] is
    the library's. *)
Variable int_max_str_digits : nat.
Variable int_error_message : string -> string.

Definition getenv_int (name fallback : string) : outcome Z :=
  let text := default fallback (environ !! name) in
  match int_of_str int_max_str_digits text with
  | Some z => Returns z
  | None => Raises (ValueError (int_error_message text))
  end.

(** The window as [__init__] has it before it turns to the camera: the
    widgets and the state just made, the settings read. *)
Definition window_before_camera (enabled : bool)
    (index width height timer_ms : Z) : App :=
  {| window :=
       {| camera_enabled := enabled;
          last_frame := None;
          current_image_path := None;
          temp_files := [];
          status_message := "Ready";
          loaded_path_label := "No file selected.";
          identify_btn_enabled := false;
          result_label := "—";
          conf_label := "Confidence: —";
          notes := "" |};
     cap := None;
     timer_interval := None;
     capture_btn_enabled := true;
     image_label :=
       PreviewText ("No image loaded." ++ nl ++ "Use Load Image… to test the API.");
     camera_index := index;
     camera_width := width;
     camera_height := height;
     camera_timer_ms := timer_ms;
     device_calls := [] |}.

(** [MainWindow.__init__()]: the window built, or the exception that
    ends the construction, be it of a setting or of [_start_camera]. *)
Definition __init__ : outcome App :=
  let enabled := _env_bool environ "CAMERA_ENABLED" true in
  index ← getenv_int "CAMERA_INDEX" "0";
  width ← getenv_int "CAMERA_WIDTH" "1280";
  height ← getenv_int "CAMERA_HEIGHT" "720";
  timer_ms ← getenv_int "CAMERA_TIMER_MS" "33";
  let a := window_before_camera enabled index width height timer_ms in
  if enabled then
    match _start_camera a with
    | (Returns _, a) => Returns a
    | (Raises e, _) => Raises e
    end
  else
    mret (set_capture_btn false
            (status "Camera disabled (CAMERA_ENABLED=0)." a)).

End Camera.

Arguments PreviewText {Frame}.
Arguments PreviewFrame {Frame}.
Arguments PreviewFile {Frame}.
Arguments mkApp {Frame}.
Arguments window {Frame}.
Arguments cap {Frame}.
Arguments timer_interval {Frame}.
Arguments capture_btn_enabled {Frame}.
Arguments image_label {Frame}.
Arguments camera_index {Frame}.
Arguments camera_width {Frame}.
Arguments camera_height {Frame}.
Arguments camera_timer_ms {Frame}.
Arguments device_calls {Frame}.
Arguments set_window {Frame}.
Arguments set_cap {Frame}.
Arguments set_timer {Frame}.
Arguments set_capture_btn {Frame}.
Arguments set_image_label {Frame}.
Arguments call {Frame}.
Arguments status {Frame}.
Arguments set_last_frame {Frame}.
Arguments _start_camera {Frame}.
Arguments _update_camera_frame {Frame}.
Arguments on_load_image {Frame}.
Arguments closeEvent {Frame}.
Arguments capture {Frame}.
Arguments window_before_camera {Frame}.

(** ** app.py: the slots as the event loop calls them *)

Section Slots.

Variable Frame : Type.

(** What the event loop hands to a slot that [__init__] connected: a
    click on Capture (with what the temporary file and [cv2.imwrite]
    give this time), on Identify (with the text of the sample box) or
    on Load Image (with the path the dialog returns), a timeout of the
    poll timer (with what the device reads), and a signal of a worker
    thread. *)
Inductive Event : Type :=
| CaptureClicked (tmp : outcome string) (wrote : outcome bool)
| IdentifyClicked (currentText : string)
| LoadClicked (file_path : string)
| TimerTimeout (read : Cap -> bool * option Frame)
| SignalEmitted (s : Signal).

Variable qpixmap_from_bgr : Frame -> outcome unit.
Variable pixmap_is_null : string -> bool.
Variable setText_value : json -> option string.
Variable format_value : json -> string.

(** The slot called for an event: the window and the images written
    afterwards.  An exception that ends a slot is reported by the event
    loop and goes no further, so the state is the one the slot left. *)
Definition slot (e : Event) (st : App Frame * Writes Frame)
  : App Frame * Writes Frame :=
  let '(a, written) := st in
  match e with
  | CaptureClicked tmp wrote =>
      let '(_, a, written) := capture (fun _ => tmp) (fun _ _ => wrote) a written in
      (a, written)
  | IdentifyClicked currentText =>
      (set_window (fst (on_identify currentText (window a))) a, written)
  | LoadClicked file_path => (on_load_image pixmap_is_null file_path a, written)
  | TimerTimeout read => (snd (_update_camera_frame qpixmap_from_bgr read a), written)
  | SignalEmitted s =>
      (set_window (snd (deliver setText_value format_value s (window a))) a, written)
  end.

Fixpoint run_events (es : list Event) (st : App Frame * Writes Frame)
  : App Frame * Writes Frame :=
  match es with
  | [] => st
  | e :: es => run_events es (slot e st)
  end.

End Slots.

Arguments CaptureClicked {Frame}.
Arguments IdentifyClicked {Frame}.
Arguments LoadClicked {Frame}.
Arguments TimerTimeout {Frame}.
Arguments SignalEmitted {Frame}.
Arguments slot {Frame}.
Arguments run_events {Frame}.

(** ** Stand-ins for what lies outside the program

    A world, library functions and replies to run the model on. *)

Module Demo.

Definition demo_environ : gmap string string :=
  <["OPENAI_API_KEY" := "sk-demo"]> ∅.

(** A world where the key is set, every file reads as three bytes and
    the service always answers [reply]. *)
Definition demo_world (reply : option string) : World :=
  {| environ := demo_environ;
     read_bytes := fun _ => Returns "abc";
     responses_create := fun _ _ => Returns {| output_text := reply |} |}.

(** The library functions no property looks into. *)
Definition demo_splitext (path : string) : string := ".jpg".
Definition demo_b64encode (data : string) : string := "YWJj".

Definition demo_globals : Globals := import_identify_image demo_environ.

(** [identify_image("frame.jpg", "Pond")] in that world, with the
    decoder of this file and the default digit limit. *)
Definition demo_identify (reply : string) : outcome (gmap string json) :=
  fst (identify_image Decoder.json_decode demo_splitext demo_b64encode 4300
         (demo_world (Some reply)) demo_globals "frame.jpg" (Some "Pond")).

Definition quoted (s : string) : string := dq ++ s ++ dq.

(** The reply of the specification's example, without its fence and
    with it, what it decodes to and the result expected. *)
Definition rotifer_json : string :=
  "{" ++ quoted "best_guess_name" ++ ": " ++ quoted "Rotifer" ++ ", "
      ++ quoted "confidence" ++ ": 150}".

Definition rotifer_reply : string := fenced "json" rotifer_json.

Definition rotifer_dict : gmap string json :=
  <["best_guess_name" := JString "Rotifer"]> (<["confidence" := JInt 150]> ∅).

Definition rotifer_result : gmap string json :=
  <["best_guess_name" := JString "Rotifer"]>
  (<["confidence" := JInt 100]>
  (<["description" := JString ""]>
  (<["features_used" := JString ""]> ∅))).

(** A reply with all four keys and the confidence [c] as written, and
    the dict with the confidence [c]. *)
Definition full_json (c : string) : string :=
  "{" ++ quoted "best_guess_name" ++ ": " ++ quoted "Paramecium" ++ ", "
      ++ quoted "confidence" ++ ": " ++ c ++ ", "
      ++ quoted "description" ++ ": " ++ quoted "A slipper-shaped ciliate." ++ ", "
      ++ quoted "features_used" ++ ": " ++ quoted "Cilia, oral groove." ++ "}".

Definition full_dict (c : json) : gmap string json :=
  <["best_guess_name" := JString "Paramecium"]>
  (<["confidence" := c]>
  (<["description" := JString "A slipper-shaped ciliate."]>
  (<["features_used" := JString "Cilia, oral groove."]> ∅))).

(** The binary64 values 87.5, 99.9 (the nearest one) and 100. *)
Definition f87_5 : spec_float := Eval vm_compute in Decoder.float_of_decimal false 875 (-1).
Definition f99_9 : spec_float := Eval vm_compute in Decoder.float_of_decimal false 999 (-1).

(** A reply that gives the confidence 87.5 and no other key, what it
    decodes to and what [identify_image] returns for it. *)
Definition lone_confidence_json : string :=
  "{" ++ quoted "confidence" ++ ": 87.5}".

Definition lone_confidence_dict : gmap string json :=
  <["confidence" := JFloat f87_5]> ∅.

Definition lone_confidence_result : gmap string json :=
  <["best_guess_name" := JString "Unknown"]>
  (<["confidence" := JInt 87]>
  (<["description" := JString ""]>
  (<["features_used" := JString ""]> ∅))).

(** The window as [__init__] leaves it when CAMERA_ENABLED is 0 (no
    frame is ever polled), and a window whose camera runs and has given
    no frame yet. *)
Definition window_camera_off : MainWindow unit :=
  {| camera_enabled := false;
     last_frame := None;
     current_image_path := None;
     temp_files := [];
     status_message := "Camera disabled (CAMERA_ENABLED=0).";
     loaded_path_label := "No file selected.";
     identify_btn_enabled := false;
     result_label := "—";
     conf_label := "Confidence: —";
     notes := "" |}.

Definition window_waiting : MainWindow unit :=
  {| camera_enabled := true;
     last_frame := None;
     current_image_path := None;
     temp_files := [];
     status_message := "Live camera running (index 0).";
     loaded_path_label := "No file selected.";
     identify_btn_enabled := false;
     result_label := "—";
     conf_label := "Confidence: —";
     notes := "" |}.

(** The same window after the first frame (a frame is opaque: [tt]). *)
Definition window_with_frame : MainWindow unit :=
  {| camera_enabled := true;
     last_frame := Some tt;
     current_image_path := None;
     temp_files := [];
     status_message := "Live camera running (index 0).";
     loaded_path_label := "No file selected.";
     identify_btn_enabled := false;
     result_label := "—";
     conf_label := "Confidence: —";
     notes := "" |}.

Definition demo_tempfile (suffix : string) : outcome string :=
  Returns ("/tmp/tmp0" ++ suffix).

Definition demo_imwrite (path : string) (frame : unit) : outcome bool :=
  Returns true.

End Demo.

Import Demo.

(** Stand-ins for the camera and the window: an OpenCV build with all
    four constants, a device that never opens and one that opens with
    the default backend only, a file system where [unlink] removes a file
    that exists, a label that takes texts only, and [str] on a decoded
    integer or text. *)

Module DemoWindow.

Definition demo_cv2 : Cv2 :=
  {| CAP_V4L2 := Some 200%Z; CAP_AVFOUNDATION := Some 1200%Z;
     CAP_DSHOW := Some 700%Z; CAP_MSMF := Some 1400%Z |}.

Definition no_camera (c : Cap) : bool := false.

Definition default_backend_only (c : Cap) : bool :=
  match cap_api c with
  | None => true
  | Some _ => false
  end.

Definition demo_pixmap (frame : unit) : outcome unit := Returns tt.

Definition demo_is_null (path : string) : bool := false.

Definition demo_unlink (path : string) (files : gset string)
  : outcome (gset string) :=
  if decide (path ∈ files) then Returns (files ∖ {[path]})
  else Raises (OSError "No such file or directory").

Definition demo_setText (v : json) : option string :=
  match v with
  | JString s => Some s
  | _ => None
  end.

Definition demo_format (v : json) : string :=
  match v with
  | JInt z => pretty z
  | JString s => s
  | _ => ""
  end.

Definition demo_int_error (text : string) : string :=
  "invalid literal for int() with base 10: '" ++ text ++ "'".

(** What the bindings raise for an argument they cannot convert. *)
Definition demo_cv2_error (index : Z) : string :=
  "Overload resolution failed".

Definition demo_set_error (value : Z) : exn :=
  OverflowError "int too large to convert to float".

Definition demo_timer_error (ms : Z) : exn :=
  OverflowError "Python int too large to convert to C long".

(** The window built with an empty environment on Linux when no camera
    is there. *)
Definition app_no_camera : outcome (App unit) :=
  __init__ unit ∅ demo_cv2 "linux" no_camera demo_cv2_error demo_set_error
    demo_timer_error 4300 demo_int_error.

(** A window whose camera runs, with a frame and a loaded image. *)
Definition app_running : App unit :=
  {| window :=
       {| camera_enabled := true;
          last_frame := Some tt;
          current_image_path := Some "slide.png";
          temp_files := ["/tmp/tmp0.jpg"];
          status_message := "Image loaded. Ready to identify.";
          loaded_path_label := "slide.png";
          identify_btn_enabled := true;
          result_label := "—";
          conf_label := "Confidence: —";
          notes := "" |};
     cap := Some (mkCap 0 None);
     timer_interval := Some 33%Z;
     capture_btn_enabled := true;
     image_label := PreviewFile "slide.png";
     camera_index := 0;
     camera_width := 1280;
     camera_height := 720;
     camera_timer_ms := 33;
     device_calls := [CallOpen (mkCap 0 None)] |}.

(** A world where no key is set, and one where the key is set and no
    file can be read. *)
Definition world_no_key : World :=
  {| environ := ∅;
     read_bytes := fun _ => Returns "abc";
     responses_create := fun _ _ => Returns {| output_text := None |} |}.

Definition world_no_file : World :=
  {| environ := demo_environ;
     read_bytes := fun _ => Raises (OSError "No such file or directory");
     responses_create := fun _ _ => Returns {| output_text := None |} |}.

(** A reply whose name is a number, and what it decodes to. *)
Definition number_name_json : string :=
  "{" ++ quoted "best_guess_name" ++ ": 5}".

Definition number_name_dict : gmap string json :=
  <["best_guess_name" := JInt 5]> ∅.

End DemoWindow.

Import DemoWindow.

(** * Properties *)

(** ** Text methods *)

Module PyStrFacts.

Lemma app_nil_l (b : string) : "" ++ b = b.
Proof. reflexivity. Qed.

Lemma app_cons c (a b : string) : String c a ++ b = String c (a ++ b).
Proof. reflexivity. Qed.

Ltac str_simpl := rewrite ?app_nil_l, ?app_cons; simpl.

Lemma app_assoc (a b c : string) : (a ++ b) ++ c = a ++ (b ++ c).
Proof. induction a as [|x a IH]; str_simpl; [reflexivity | rewrite IH; reflexivity]. Qed.

Lemma app_empty (a b : string) : a ++ b = "" -> a = "" /\ b = "".
Proof. destruct a; [simpl; auto | discriminate]. Qed.

Lemma length_app a b : String.length (a ++ b) = String.length a + String.length b.
Proof. induction a as [|c a IH]; str_simpl; [reflexivity | rewrite IH; reflexivity]. Qed.

Lemma isspace_lower_char c : isspace (lower_char c) = isspace c.
Proof. destruct c as [[] [] [] [] [] [] [] []]; reflexivity. Qed.


Lemma lstrip_lower s : lstrip (lower s) = lower (lstrip s).
Proof.
  induction s as [|c r IH]; simpl; [reflexivity|].
  rewrite isspace_lower_char. destruct (isspace c); [exact IH | reflexivity].
Qed.

Lemma rstrip_lower s : rstrip (lower s) = lower (rstrip s).
Proof.
  induction s as [|c r IH]; simpl; [reflexivity|].
  rewrite IH, isspace_lower_char.
  destruct (rstrip r) as [|c' r']; simpl; [|reflexivity].
  destruct (isspace c); reflexivity.
Qed.

(** Dropping the white space around a text and lowering its letters
    can be done in either order. *)
Lemma strip_lower s : strip (lower s) = lower (strip s).
Proof. unfold strip. rewrite rstrip_lower. apply lstrip_lower. Qed.

Lemma all_space_app a b : all_space (a ++ b) = all_space a && all_space b.
Proof.
  induction a as [|c a IH]; str_simpl; [reflexivity|].
  rewrite IH. apply andb_assoc.
Qed.

Lemma rstrip_all_space s : all_space s = true -> rstrip s = "".
Proof.
  induction s as [|c r IH]; simpl; [reflexivity|].
  intros [Hc Hr]%andb_prop. rewrite (IH Hr), Hc. reflexivity.
Qed.

Lemma rstrip_empty s : rstrip s = "" -> all_space s = true.
Proof.
  induction s as [|c r IH]; simpl; [reflexivity|].
  destruct (rstrip r) as [|c' r']; [|discriminate].
  destruct (isspace c); [intros _; simpl; auto | discriminate].
Qed.

Lemma rstrip_app a b :
  rstrip (a ++ b) = match rstrip b with
                    | EmptyString => rstrip a
                    | _ => a ++ rstrip b
                    end.
Proof.
  induction a as [|c a IH]; str_simpl.
  - destruct (rstrip b); reflexivity.
  - rewrite IH. destruct (rstrip b) as [|c' b']; [reflexivity|].
    destruct a; reflexivity.
Qed.

Lemma lstrip_app_space w s : all_space w = true -> lstrip (w ++ s) = lstrip s.
Proof.
  induction w as [|c w IH]; str_simpl; [reflexivity|].
  intros [Hc Hw]%andb_prop. rewrite Hc. auto.
Qed.

(** White space around a text does not change what [strip] returns. *)
Lemma strip_app_space w1 s w2 :
  all_space w1 = true -> all_space w2 = true ->
  strip (w1 ++ s ++ w2) = strip s.
Proof.
  intros H1 H2. unfold strip.
  rewrite (rstrip_app w1), (rstrip_app s), (rstrip_all_space w2 H2).
  destruct (rstrip s) as [|c r] eqn:E.
  - rewrite (rstrip_all_space w1 H1). reflexivity.
  - apply lstrip_app_space, H1.
Qed.

Lemma strip_app_nl body : strip (body ++ nl) = strip body.
Proof. exact (strip_app_space "" body nl eq_refl eq_refl). Qed.

Lemma endswith_app a p : endswith (a ++ p) p = true.
Proof.
  induction a as [|c a IH]; str_simpl.
  - destruct p; simpl; rewrite ?String.eqb_refl, ?Ascii.eqb_refl; reflexivity.
  - rewrite IH. apply orb_true_r.
Qed.

Lemma substring_app a b : String.substring 0 (String.length a) (a ++ b) = a.
Proof.
  induction a as [|c a IH]; str_simpl.
  - destruct b; reflexivity.
  - rewrite IH. reflexivity.
Qed.

Lemma slice_to_neg_app a p : slice_to_neg (String.length p) (a ++ p) = a.
Proof.
  unfold slice_to_neg. rewrite length_app.
  replace (String.length a + String.length p - String.length p)
    with (String.length a) by lia.
  apply substring_app.
Qed.

Lemma contains_app c a b : contains c (a ++ b) = contains c a || contains c b.
Proof.
  induction a as [|x a IH]; str_simpl; [reflexivity|].
  rewrite IH. apply orb_assoc.
Qed.

Lemma split1_app c a r :
  contains c a = false -> split1 c (a ++ String c r) = [a; r].
Proof.
  induction a as [|x a IH]; str_simpl.
  - intros _. rewrite Ascii.eqb_refl. reflexivity.
  - intros [Hx Ha]%orb_false_elim. rewrite Hx, (IH Ha). reflexivity.
Qed.

Lemma or_else_nonempty s d : s <> "" -> or_else (Some s) d = s.
Proof. destruct s; [congruence | reflexivity]. Qed.

Lemma or_else_empty s : or_else (Some s) "" = s.
Proof. destruct s; reflexivity. Qed.

Lemma truthy_nonempty s : truthy s = true <-> s <> "".
Proof. destruct s; simpl; split; (congruence || discriminate || auto). Qed.

End PyStrFacts.

Import PyStrFacts.

(** ** The context hint *)

Lemma hints_lookup (k : string) :
  hints !! k =
    if decide (k = "other") then Some hint_other
    else if decide (k = "crystal") then Some hint_crystal
    else if decide (k = "tissue") then Some hint_tissue
    else if decide (k = "soil") then Some hint_soil
    else if decide (k = "pond") then Some hint_pond
    else None.
Proof.
  unfold hints.
  repeat (rewrite lookup_insert; case_decide; subst;
          [repeat case_decide; congruence|]).
  rewrite lookup_empty. repeat case_decide; congruence.
Qed.

(** The dict lookup of the code is the lookup the specification words. *)
Lemma context_hint_category st :
  _context_hint st = hint_of_category (normalize_sample_type st).
Proof.
  unfold _context_hint. cbv zeta. rewrite !hints_lookup.
  unfold hint_of_category.
  repeat case_decide; simpl; congruence.
Qed.

(** C7. The context hinter is a total function: on every input, a text
    or [None], it returns one of the five fixed hints, the one of the
    category that the normalized input names; and it returns the hint of
    "other" for every input that names none of the five categories. *)
Theorem context_hint_total (sample_type : option string) :
  _context_hint sample_type ∈ all_hints
  ∧ _context_hint sample_type
    = hint_of_category (normalize_sample_type sample_type)
  ∧ (normalize_sample_type sample_type ∉ sample_keys →
     _context_hint sample_type = hint_other).
Proof.
  rewrite context_hint_category. unfold hint_of_category, all_hints, sample_keys.
  split; [|split].
  - repeat case_decide; set_solver.
  - reflexivity.
  - intros Hn. repeat case_decide; try reflexivity; exfalso; apply Hn; set_solver.
Qed.

(** C7 at a sample type that names no category. *)
Lemma context_hint_total_witness : _context_hint (Some "Plankton") = hint_other.
Proof.
  refine (proj2 (proj2 (context_hint_total (Some "Plankton"))) _).
  change (normalize_sample_type (Some "Plankton")) with "plankton".
  unfold sample_keys. intros H.
  repeat (apply elem_of_cons in H as [H|H]; [discriminate H|]).
  inversion H.
Defined.

(** ** Normalization of the sample type *)

Lemma context_hint_blank s :
  all_space s = true -> _context_hint (Some s) = hint_other.
Proof.
  intros H. destruct s as [|c r]; [reflexivity|].
  rewrite context_hint_category. unfold normalize_sample_type.
  rewrite or_else_nonempty by discriminate.
  unfold strip. rewrite (rstrip_all_space _ H). reflexivity.
Qed.

Lemma context_hint_some s :
  s <> "" -> _context_hint (Some s) = hint_of_category (lower (strip s)).
Proof.
  intros H. rewrite context_hint_category. unfold normalize_sample_type.
  rewrite or_else_nonempty by assumption. reflexivity.
Qed.

(** C10. The sample type is normalized before the lookup: white space
    around it is dropped, letter case is ignored, and [None] or the empty
    text stand for "Other".  So "Pond", "pond" and " POND " all give the
    pond hint, and [None] and the empty text give the hint of "other". *)
Theorem context_hint_normalizes :
  (∀ s, s ≠ "" → _context_hint (Some s) = hint_of_category (lower (strip s)))
  ∧ (∀ w1 s w2, all_space w1 = true → all_space w2 = true →
       _context_hint (Some (w1 ++ s ++ w2)) = _context_hint (Some s))
  ∧ (∀ s1 s2, lower s1 = lower s2 →
       _context_hint (Some s1) = _context_hint (Some s2))
  ∧ _context_hint (Some "Pond") = hint_pond
  ∧ _context_hint (Some "pond") = hint_pond
  ∧ _context_hint (Some " POND ") = hint_pond
  ∧ _context_hint None = _context_hint (Some "Other")
  ∧ _context_hint (Some "") = _context_hint (Some "Other")
  ∧ _context_hint None = hint_other
  ∧ _context_hint (Some "") = hint_other.
Proof.
  split; [exact context_hint_some|].
  split.
  { intros w1 s w2 H1 H2.
    destruct (rstrip s) as [|c r] eqn:Es.
    - apply rstrip_empty in Es.
      rewrite (context_hint_blank s Es). apply context_hint_blank.
      rewrite !all_space_app, H1, H2, Es. reflexivity.
    - assert (s <> "") as Hs by (intros ->; discriminate).
      assert (w1 ++ s ++ w2 <> "") as Hw.
      { intros [_ [E _]%app_empty]%app_empty. contradiction. }
      rewrite !context_hint_some by assumption.
      rewrite strip_app_space by assumption. reflexivity. }
  split.
  { intros s1 s2 E.
    destruct s1 as [|c1 r1], s2 as [|c2 r2]; try discriminate; [reflexivity|].
    rewrite !context_hint_some by discriminate.
    rewrite <- !strip_lower, E. reflexivity. }
  repeat split; reflexivity.
Qed.

(** C10 at a padded, mixed-case "soil" and at two spellings of "tissue". *)
Lemma context_hint_normalizes_witness :
  _context_hint (Some ("  " ++ "SoIl" ++ nl)) = _context_hint (Some "SoIl")
  ∧ _context_hint (Some "SoIl") = hint_of_category "soil"
  ∧ _context_hint (Some "TISSUE") = _context_hint (Some "tissue").
Proof.
  destruct context_hint_normalizes as (Hcat & Hpad & Hcase & _).
  split; [exact (Hpad "  " "SoIl" nl eq_refl eq_refl)|].
  split; [apply (Hcat "SoIl"); discriminate|].
  exact (Hcase "TISSUE" "tissue" eq_refl).
Defined.

(** ** The sanitized result *)

Lemma setdefault_lookup k v (d : gmap string json) k' :
  setdefault k v d !! k' = if decide (k = k') then Some (default v (d !! k)) else d !! k'.
Proof.
  unfold setdefault. destruct (d !! k) as [x|] eqn:E.
  - case_decide; subst; simpl; congruence.
  - rewrite lookup_insert. case_decide; reflexivity.
Qed.

Lemma clamp_range x : (0 <= clamp x <= 100)%Z.
Proof. unfold clamp. lia. Qed.

Lemma clamp_id x : (0 <= x <= 100)%Z -> clamp x = x.
Proof. unfold clamp. lia. Qed.

Section SanitizeFacts.

Variable lim : nat.

(** What [sanitize] leaves under each key. *)
Lemma sanitize_lookup (d : gmap string json) k :
  sanitize lim d !! k =
    if decide (k = "confidence") then Some (JInt (confidence_of lim d))
    else match d !! k with
         | Some v => Some v
         | None => DEFAULTS !! k
         end.
Proof.
  unfold sanitize, confidence_of, DEFAULTS, int_or_zero.
  rewrite !setdefault_lookup. simpl.
  case_decide as Hk.
  - subst k. rewrite lookup_insert_eq.
    destruct (d !! "confidence") as [v|]; simpl; [|reflexivity].
    destruct (py_int lim v); reflexivity.
  - rewrite !lookup_insert_ne by congruence.
    rewrite !setdefault_lookup.
    repeat (rewrite lookup_insert; case_decide; subst);
      try congruence; simpl;
      repeat case_decide; try congruence;
      destruct (d !! _); reflexivity.
Qed.

(** [sanitize] in one equation: the defaults fill the gaps, and the
    confidence is stored anew. *)
Lemma sanitize_eq (d : gmap string json) :
  sanitize lim d = <["confidence" := JInt (confidence_of lim d)]> (d ∪ DEFAULTS).
Proof.
  apply map_eq. intros k. rewrite sanitize_lookup, lookup_insert.
  case_decide; case_decide; try congruence.
  rewrite lookup_union. destruct (d !! k), (DEFAULTS !! k); reflexivity.
Qed.


Lemma confidence_of_range d : (0 <= confidence_of lim d <= 100)%Z.
Proof.
  unfold confidence_of. destruct (d !! "confidence"); [apply clamp_range | lia].
Qed.

Lemma sanitize_populated d k : k ∈ expected_keys → is_Some (sanitize lim d !! k).
Proof.
  intros Hk. rewrite sanitize_lookup. case_decide; [eauto|].
  destruct (d !! k); [eauto|].
  unfold expected_keys in Hk.
  repeat (apply elem_of_cons in Hk as [->|Hk]; [vm_compute; eauto|]).
  inversion Hk.
Qed.

End SanitizeFacts.

(** ** identify_image: from the reply to the result *)

Section IdentifyFacts.

Variable json_loads : string -> option json.
Variable splitext_ext : string -> string.
Variable b64encode : string -> string.
Variable lim : nat.

#[local] Abbreviation identify := (identify_image json_loads splitext_ext b64encode lim).
#[local] Abbreviation ask := (ask_model splitext_ext b64encode).

Lemma identify_image_reply w g p st resp :
  fst (ask w g p st) = Returns resp →
  fst (identify w g p st) = interpret_reply json_loads lim resp.
Proof.
  unfold identify_image. destruct (ask w g p st) as [o g']. simpl.
  intros ->. reflexivity.
Qed.

Lemma identify_image_returns w g p st r :
  fst (identify w g p st) = Returns r →
  ∃ resp d, fst (ask w g p st) = Returns resp
            ∧ json_loads (cleaned_text resp) = Some (JObject d)
            ∧ r = sanitize lim d.
Proof.
  unfold identify_image. destruct (ask w g p st) as [[resp|e] g']; simpl;
    [|discriminate].
  unfold interpret_reply.
  destruct (json_loads (cleaned_text resp)) as [[]|] eqn:E; try discriminate.
  intros [= <-]. eauto.
Qed.

Lemma interpret_reply_object resp d :
  json_loads (cleaned_text resp) = Some (JObject d) →
  interpret_reply json_loads lim resp = Returns (sanitize lim d).
Proof. unfold interpret_reply. intros ->. reflexivity. Qed.


(** C2, amended. Every value [identify_image] returns has all four
    keys.  When the cleaned reply decodes to an object, the call returns,
    and for each of the four keys: a missing key holds its default
    ("Unknown", 0, "", ""); a present name, description or list of
    features keeps its value; a present confidence [v] is replaced by
    [int(v)] brought into [0,100] (below 0 gives 0, above 100 gives
    100), and by 0 when [int(v)] raises; a present integer within
    [0,100] is kept.  Any other key of the reply is passed on as it
    is. *)
Theorem identify_image_defaults w g p st :
  (∀ r, fst (identify w g p st) = Returns r →
        Forall (λ k, is_Some (r !! k)) expected_keys)
  ∧ (∀ resp d,
       fst (ask w g p st) = Returns resp →
       json_loads (cleaned_text resp) = Some (JObject d) →
       ∃ r, fst (identify w g p st) = Returns r
            ∧ Forall (λ k,
                 match d !! k with
                 | None => r !! k = DEFAULTS !! k
                 | Some v =>
                     r !! k = Some (if decide (k = "confidence")
                                    then JInt match py_int lim v with
                                              | Some z => Z.max 0 (Z.min 100 z)
                                              | None => 0%Z
                                              end
                                    else v)
                 end) expected_keys
            ∧ (∀ z, d !! "confidence" = Some (JInt z) →
                 r !! "confidence" = Some (JInt (Z.max 0 (Z.min 100 z)))
                 ∧ ((0 ≤ z ≤ 100)%Z → r !! "confidence" = Some (JInt z))
                 ∧ ((z < 0)%Z → r !! "confidence" = Some (JInt 0))
                 ∧ ((100 < z)%Z → r !! "confidence" = Some (JInt 100)))
            ∧ (∀ k, k ∉ expected_keys → r !! k = d !! k)
            ∧ DEFAULTS !! "best_guess_name" = Some (JString "Unknown")
            ∧ DEFAULTS !! "confidence" = Some (JInt 0)
            ∧ DEFAULTS !! "description" = Some (JString "")
            ∧ DEFAULTS !! "features_used" = Some (JString "")).
Proof.
  split.
  - intros r (resp & d & _ & _ & ->)%identify_image_returns.
    apply Forall_forall. intros k Hk. apply sanitize_populated, Hk.
  - intros resp d Hask Hd. exists (sanitize lim d).
    rewrite (identify_image_reply _ _ _ _ _ Hask), (interpret_reply_object _ _ Hd).
    split; [reflexivity|].
    split; [|split; [|split; [|repeat split; reflexivity]]].
    + apply Forall_forall. intros k _. rewrite sanitize_lookup.
      unfold confidence_of, int_or_zero, clamp.
      case_decide; [subst k|]; destruct (d !! _) as [v|]; try reflexivity.
      destruct (py_int lim v); reflexivity.
    + intros z Hz. rewrite sanitize_lookup.
      unfold confidence_of, int_or_zero, clamp. rewrite Hz.
      case_decide; [|congruence]. cbn.
      repeat split; intros; do 2 f_equal; lia.
    + intros k Hk. rewrite sanitize_lookup.
      case_decide; [subst k; destruct Hk; set_solver|].
      destruct (d !! k); [reflexivity|].
      unfold DEFAULTS.
      repeat (rewrite lookup_insert; case_decide;
              [subst k; destruct Hk; set_solver|]).
      apply lookup_empty.
Qed.

(** C3, amended. When the cleaned reply does not decode, or decodes to
    a value that is not an object, [identify_image] raises a
    [ValueError] and returns nothing; the message of the error ends
    with the cleaned text, the reply after fence stripping. *)
Theorem identify_image_format_error w g p st resp :
  fst (ask w g p st) = Returns resp →
  (json_loads (cleaned_text resp) = None →
     fst (identify w g p st)
     = Raises (ValueError ("Model did not return JSON. Got:" ++ nl ++ cleaned_text resp)))
  ∧ (∀ v, json_loads (cleaned_text resp) = Some v →
          (∀ d, v ≠ JObject d) →
     fst (identify w g p st)
     = Raises (ValueError ("Model returned non-dict JSON. Got:" ++ nl ++ cleaned_text resp))).
Proof.
  intros Hask. rewrite (identify_image_reply _ _ _ _ _ Hask).
  unfold interpret_reply. split.
  - intros ->. reflexivity.
  - intros v -> Hv. destruct v; try reflexivity. destruct (Hv d). reflexivity.
Qed.

(** C5, amended. When the cleaned reply decodes to an object, the
    confidence of the result is an integer in [0,100]: [int(v)] clamped
    when the reply gives a confidence [v] that [int] accepts (an
    integer, a boolean, a finite float, a text that spells an integer),
    and 0 when the key is missing or [int(v)] raises.  So -5 gives 0
    and 150 gives 100. *)
Theorem identify_image_confidence w g p st resp d :
  fst (ask w g p st) = Returns resp →
  json_loads (cleaned_text resp) = Some (JObject d) →
  ∃ r c, fst (identify w g p st) = Returns r
         ∧ r !! "confidence" = Some (JInt c)
         ∧ (0 ≤ c ≤ 100)%Z
         ∧ c = match d !! "confidence" with
               | None => 0%Z
               | Some v => match py_int lim v with
                           | Some z => clamp z
                           | None => 0%Z
                           end
               end
         ∧ (∀ z, d !! "confidence" = Some (JInt z) → c = clamp z)
         ∧ (d !! "confidence" = Some (JInt (-5)) → c = 0%Z)
         ∧ (d !! "confidence" = Some (JInt 150) → c = 100%Z)
         ∧ (∀ v, d !! "confidence" = Some v → py_int lim v = None → c = 0%Z).
Proof.
  intros Hask Hd. exists (sanitize lim d), (confidence_of lim d).
  rewrite (identify_image_reply _ _ _ _ _ Hask), (interpret_reply_object _ _ Hd).
  split; [reflexivity|].
  split; [rewrite sanitize_lookup; reflexivity|].
  split; [apply confidence_of_range|].
  unfold confidence_of, int_or_zero.
  split; [destruct (d !! "confidence") as [v|]; [destruct (py_int lim v)|]; reflexivity|].
  repeat split.
  - intros z ->. reflexivity.
  - intros ->. reflexivity.
  - intros ->. reflexivity.
  - intros v -> ->. reflexivity.
Qed.

(** C6. The reply of the example: the fenced object with the name
    "Rotifer" and the confidence 150, for the sample type "Pond", gives
    the name "Rotifer", the confidence 100 and two empty texts. *)
Theorem identify_image_rotifer w g p resp :
  fst (ask w g p (Some "Pond")) = Returns resp →
  output_text resp = Some rotifer_reply →
  json_loads rotifer_json = Some (JObject rotifer_dict) →
  cleaned_text resp = rotifer_json
  ∧ fst (identify w g p (Some "Pond")) = Returns rotifer_result.
Proof.
  intros Hask Hout Hd.
  assert (cleaned_text resp = rotifer_json) as Hc.
  { unfold cleaned_text. rewrite Hout. vm_compute. reflexivity. }
  split; [exact Hc|].
  rewrite (identify_image_reply _ _ _ _ _ Hask).
  unfold interpret_reply. rewrite Hc, Hd.
  apply (f_equal Returns). vm_compute. reflexivity.
Qed.

End IdentifyFacts.

(** ** The theorems on the decoder of this file *)

(** The model asked in the demo world answers with the reply given. *)
Lemma demo_ask reply :
  fst (ask_model demo_splitext demo_b64encode (demo_world reply) demo_globals
         "frame.jpg" (Some "Pond"))
  = Returns {| output_text := reply |}.
Proof. reflexivity. Qed.



(** C2 at the reply of the example, which lacks two keys. *)
Lemma identify_image_defaults_witness :
  ∃ r, demo_identify rotifer_reply = Returns r
       ∧ Forall (λ k,
            match rotifer_dict !! k with
            | None => r !! k = DEFAULTS !! k
            | Some v =>
                r !! k = Some (if decide (k = "confidence")
                               then JInt match py_int 4300 v with
                                         | Some z => Z.max 0 (Z.min 100 z)
                                         | None => 0%Z
                                         end
                               else v)
            end) expected_keys
       ∧ (∀ z, rotifer_dict !! "confidence" = Some (JInt z) →
            r !! "confidence" = Some (JInt (Z.max 0 (Z.min 100 z)))
            ∧ ((0 ≤ z ≤ 100)%Z → r !! "confidence" = Some (JInt z))
            ∧ ((z < 0)%Z → r !! "confidence" = Some (JInt 0))
            ∧ ((100 < z)%Z → r !! "confidence" = Some (JInt 100)))
       ∧ (∀ k, k ∉ expected_keys → r !! k = rotifer_dict !! k)
       ∧ DEFAULTS !! "best_guess_name" = Some (JString "Unknown")
       ∧ DEFAULTS !! "confidence" = Some (JInt 0)
       ∧ DEFAULTS !! "description" = Some (JString "")
       ∧ DEFAULTS !! "features_used" = Some (JString "").
Proof.
  refine (proj2 (identify_image_defaults Decoder.json_decode demo_splitext
                   demo_b64encode 4300 (demo_world (Some rotifer_reply))
                   demo_globals "frame.jpg" (Some "Pond"))
            {| output_text := Some rotifer_reply |} rotifer_dict
            (demo_ask _) _);
    vm_compute; reflexivity.
Defined.

(** C2 as stated fails at a present confidence: the reply that gives
    the confidence 87.5 and nothing else comes back with the three
    defaults and the confidence 87, and the reply of the example, which
    lacks two keys and gives the confidence 150, comes back with 100. *)
Lemma identify_image_present_confidence :
  Decoder.json_decode lone_confidence_json = Some (JObject lone_confidence_dict)
  ∧ lone_confidence_dict !! "confidence" = Some (JFloat f87_5)
  ∧ lone_confidence_dict !! "description" = None
  ∧ demo_identify lone_confidence_json = Returns lone_confidence_result
  ∧ lone_confidence_result !! "confidence" = Some (JInt 87)
  ∧ Decoder.json_decode rotifer_json = Some (JObject rotifer_dict)
  ∧ rotifer_dict !! "confidence" = Some (JInt 150)
  ∧ rotifer_dict !! "description" = None
  ∧ demo_identify rotifer_reply = Returns rotifer_result
  ∧ rotifer_result !! "confidence" = Some (JInt 100).
Proof. repeat split; vm_compute; reflexivity. Qed.

(** C3 at a reply that is no JSON text and at one that is a JSON list. *)
Lemma identify_image_format_error_witness :
  demo_identify "not json"
  = Raises (ValueError ("Model did not return JSON. Got:" ++ nl ++ "not json"))
  ∧ demo_identify "[1, 2]"
    = Raises (ValueError ("Model returned non-dict JSON. Got:" ++ nl ++ "[1, 2]")).
Proof.
  split.
  - refine (proj1 (identify_image_format_error Decoder.json_decode demo_splitext
                     demo_b64encode 4300 (demo_world (Some "not json"))
                     demo_globals "frame.jpg" (Some "Pond")
                     {| output_text := Some "not json" |} (demo_ask _)) _);
      vm_compute; reflexivity.
  - refine (proj2 (identify_image_format_error Decoder.json_decode demo_splitext
                     demo_b64encode 4300 (demo_world (Some "[1, 2]"))
                     demo_globals "frame.jpg" (Some "Pond")
                     {| output_text := Some "[1, 2]" |} (demo_ask _))
              (JArray [JInt 1; JInt 2]) _ _);
      [vm_compute; reflexivity | discriminate].
Defined.

(** C3 as stated fails at a fenced reply that is no JSON text: the
    message of the error holds the text left by fence stripping, and the
    raw reply does not occur in it. *)
Lemma identify_image_error_text :
  demo_identify (fenced "json" "not json")
  = Raises (ValueError ("Model did not return JSON. Got:" ++ nl ++ "not json"))
  ∧ occurs_in "not json" ("Model did not return JSON. Got:" ++ nl ++ "not json") = true
  ∧ occurs_in (fenced "json" "not json")
      ("Model did not return JSON. Got:" ++ nl ++ "not json") = false.
Proof. repeat split; vm_compute; reflexivity. Qed.

(** C5 at the confidence -5. *)
Lemma identify_image_confidence_witness :
  ∃ r c, demo_identify (full_json "-5") = Returns r
         ∧ r !! "confidence" = Some (JInt c)
         ∧ (0 ≤ c ≤ 100)%Z
         ∧ c = match full_dict (JInt (-5)) !! "confidence" with
               | None => 0%Z
               | Some v => match py_int 4300 v with
                           | Some z => clamp z
                           | None => 0%Z
                           end
               end
         ∧ (∀ z, full_dict (JInt (-5)) !! "confidence" = Some (JInt z) → c = clamp z)
         ∧ (full_dict (JInt (-5)) !! "confidence" = Some (JInt (-5)) → c = 0%Z)
         ∧ (full_dict (JInt (-5)) !! "confidence" = Some (JInt 150) → c = 100%Z)
         ∧ (∀ v, full_dict (JInt (-5)) !! "confidence" = Some v →
                 py_int 4300 v = None → c = 0%Z).
Proof.
  refine (identify_image_confidence Decoder.json_decode demo_splitext
            demo_b64encode 4300 (demo_world (Some (full_json "-5")))
            demo_globals "frame.jpg" (Some "Pond")
            {| output_text := Some (full_json "-5") |} (full_dict (JInt (-5)))
            (demo_ask _) _);
    vm_compute; reflexivity.
Defined.

(** C5 as stated fails at a confidence that is no integer and that [int]
    accepts: the text "42" gives 42, the number 99.9 gives 99 and [true]
    gives 1, none of them the default 0. *)
Lemma identify_image_coerced_confidence :
  Decoder.json_decode (full_json (quoted "42"))
  = Some (JObject (full_dict (JString "42")))
  ∧ demo_identify (full_json (quoted "42")) = Returns (full_dict (JInt 42))
  ∧ Decoder.json_decode (full_json "99.9")
    = Some (JObject (full_dict (JFloat f99_9)))
  ∧ demo_identify (full_json "99.9") = Returns (full_dict (JInt 99))
  ∧ Decoder.json_decode (full_json "true")
    = Some (JObject (full_dict (JBool true)))
  ∧ demo_identify (full_json "true") = Returns (full_dict (JInt 1)).
Proof. repeat split; vm_compute; reflexivity. Qed.

(** C6 in the demo world, with the decoder of this file. *)
Lemma identify_image_rotifer_witness :
  cleaned_text {| output_text := Some rotifer_reply |} = rotifer_json
  ∧ demo_identify rotifer_reply = Returns rotifer_result.
Proof.
  refine (identify_image_rotifer Decoder.json_decode demo_splitext
            demo_b64encode 4300 (demo_world (Some rotifer_reply))
            demo_globals "frame.jpg"
            {| output_text := Some rotifer_reply |} (demo_ask _) eq_refl _);
    vm_compute; reflexivity.
Defined.

(** ** The decoder and white space *)

Module DecoderFacts.

Import Decoder.













End DecoderFacts.

(** ** Stripping a code fence *)

Lemma rstrip_fence x : rstrip (x ++ FENCE) = x ++ FENCE.
Proof. rewrite rstrip_app. reflexivity. Qed.

Lemma strip_block x : strip (FENCE ++ x ++ FENCE) = FENCE ++ x ++ FENCE.
Proof.
  unfold strip. rewrite <- app_assoc, rstrip_fence. reflexivity.
Qed.

(** A fenced block: the opening fence and its tag on a line of their
    own, then the body, then the closing fence; white space may surround
    the block. *)
Lemma strip_code_fence_block w1 tag body w2 :
  all_space w1 = true → all_space w2 = true →
  contains LF tag = false →
  startswith (lower (strip body)) "json" = false →
  _strip_code_fence (Some (w1 ++ (FENCE ++ (tag ++ nl ++ body) ++ FENCE) ++ w2))
  = strip body.
Proof.
  intros H1 H2 Htag Hjson. unfold _strip_code_fence.
  rewrite or_else_empty, strip_app_space, strip_block by assumption.
  change (startswith (FENCE ++ (tag ++ nl ++ body) ++ FENCE) FENCE) with true.
  cbv iota.
  assert (contains LF (FENCE ++ tag) = false) as Hft.
  { rewrite contains_app, Htag. reflexivity. }
  assert (FENCE ++ (tag ++ nl ++ body) ++ FENCE
          = (FENCE ++ tag) ++ String LF (body ++ FENCE)) as ->.
  { rewrite !app_assoc. reflexivity. }
  rewrite contains_app, Hft. simpl contains. simpl orb. cbv iota.
  rewrite split1_app by assumption. simpl nth.
  rewrite rstrip_fence, endswith_app.
  change 3 with (String.length FENCE). rewrite slice_to_neg_app.
  rewrite Hjson. reflexivity.
Qed.


(** X2. A reply that opens with a fence and has no line break is stripped to
    the empty text: the first line, which is all of it, is dropped. *)
Theorem strip_code_fence_one_line (x : string) :
  contains LF x = false →
  _strip_code_fence (Some (FENCE ++ x)) = "".
Proof.
  intros Hx. unfold _strip_code_fence. rewrite or_else_empty.
  assert (strip (FENCE ++ x) = FENCE ++ rstrip x) as ->.
  { unfold strip. rewrite rstrip_app.
    destruct (rstrip x) as [|c r]; reflexivity. }
  change (startswith (FENCE ++ rstrip x) FENCE) with true. cbv iota.
  assert (contains LF (FENCE ++ rstrip x) = false) as ->.
  { rewrite contains_app. change (contains LF FENCE) with false.
    clear -Hx. induction x as [|c r IH]; [reflexivity|].
    simpl in Hx. apply orb_false_elim in Hx as [Hc Hr].
    simpl. destruct (rstrip r) as [|c' r'] eqn:E.
    - destruct (isspace c); simpl; rewrite ?Hc; reflexivity.
    - simpl in IH |- *. rewrite Hc. exact (IH Hr). }
  reflexivity.
Qed.

(** X2 at the reply of the example written on one line. *)
Lemma strip_code_fence_one_line_witness :
  _strip_code_fence (Some (FENCE ++ "json " ++ rotifer_json ++ FENCE)) = "".
Proof.
  refine (strip_code_fence_one_line ("json " ++ rotifer_json ++ FENCE) _).
  vm_compute. reflexivity.
Defined.




(** ** The credential *)

(** C8. The credential is looked up in the environment variable first;
    the secret store is asked only when the variable is unset or empty.
    A variable that holds a text that is not empty is the credential, and
    [get_client] then returns a client for it.  The lookup raises a
    [RuntimeError] exactly when neither place holds a credential, and so
    does [get_client] on a module that has no client yet. *)
Theorem resolve_api_key_spec (environ : gmap string string) :
  (∀ k, environ !! OPENAI_API_KEY = Some k → k ≠ "" →
        resolve_api_key environ = Returns k
        ∧ fst (get_client environ (import_identify_image environ))
          = Returns (OpenAI k))
  ∧ (found_in_environment environ = false →
     resolve_api_key environ = get_openai_api_key environ)
  ∧ fails_with_RuntimeError (resolve_api_key environ)
    = negb (found_in_environment environ) && negb (found_in_store environ)
  ∧ fails_with_RuntimeError
      (fst (get_client environ (import_identify_image environ)))
    = negb (found_in_environment environ) && negb (found_in_store environ)
  ∧ (∀ e, resolve_api_key environ = Raises e → ∃ msg, e = RuntimeError msg)
  ∧ found_in_store environ = found_in_environment environ.
Proof.
  unfold found_in_environment, found_in_store, get_client, resolve_api_key,
    get_openai_api_key, env_truthy. simpl.
  destruct (environ !! OPENAI_API_KEY) as [k|] eqn:E; simpl.
  - destruct (truthy k) eqn:T; simpl; rewrite ?T; simpl.
    + split; [intros k0 [= <-] _; split; reflexivity|].
      split; [discriminate|]. split; [reflexivity|]. split; [reflexivity|].
      split; [intros e; discriminate | reflexivity].
    + split.
      { intros k0 [= <-] Hk%truthy_nonempty. congruence. }
      split; [reflexivity|]. split; [reflexivity|]. split; [reflexivity|].
      split; [intros e [= <-]; eauto | reflexivity].
  - split; [intros k [=]|].
    split; [reflexivity|]. split; [reflexivity|]. split; [reflexivity|].
    split; [intros e [= <-]; eauto | reflexivity].
Qed.

(** C8 where the variable holds a key and where nothing is set. *)
Lemma resolve_api_key_spec_witness :
  (resolve_api_key demo_environ = Returns "sk-demo"
   ∧ fst (get_client demo_environ (import_identify_image demo_environ))
     = Returns (OpenAI "sk-demo"))
  ∧ fails_with_RuntimeError (resolve_api_key ∅)
    = negb (found_in_environment ∅) && negb (found_in_store ∅)
  ∧ negb (found_in_environment ∅) && negb (found_in_store ∅) = true.
Proof.
  split; [|split].
  - refine (proj1 (resolve_api_key_spec demo_environ) "sk-demo" _ _);
      [reflexivity | discriminate].
  - exact (proj1 (proj2 (proj2 (resolve_api_key_spec ∅)))).
  - reflexivity.
Defined.

(** X1. Once [get_client] has returned a client, every later call returns
    that client and leaves the module as it is, whatever the environment
    holds by then. *)
Theorem get_client_memoized (environ environ' : gmap string string)
    (g : Globals) (c : Client) :
  fst (get_client environ g) = Returns c →
  get_client environ' (snd (get_client environ g))
  = (Returns c, snd (get_client environ g)).
Proof.
  unfold get_client. destruct (_client g) as [c0|] eqn:E; simpl.
  - intros [= <-]. rewrite E. reflexivity.
  - destruct (resolve_api_key environ) as [k|e]; simpl; [|discriminate].
    destruct (truthy k); simpl; [|discriminate].
    intros [= <-]. reflexivity.
Qed.

(** X1 in the demo world: the client stays when the key is gone. *)
Lemma get_client_memoized_witness :
  get_client ∅ (snd (get_client demo_environ demo_globals))
  = (Returns (OpenAI "sk-demo"), snd (get_client demo_environ demo_globals)).
Proof.
  exact (get_client_memoized demo_environ ∅ demo_globals (OpenAI "sk-demo") eq_refl).
Defined.

(** ** The capture action *)

(** C9, amended. With no frame polled yet, [on_capture] returns without
    raising, writes no image and changes nothing of the window but the
    status message, so the current image path and the list of temporary
    files stay as they were.  The message is "No camera frame yet." when
    the camera is enabled and "Camera disabled." when it is not. *)
Theorem on_capture_no_frame (Frame : Type)
    (NamedTemporaryFile : string → outcome string)
    (imwrite : string → Frame → outcome bool)
    (w : MainWindow Frame) (written : list (string * Frame)) :
  last_frame w = None →
  on_capture NamedTemporaryFile imwrite w written
  = (Returns tt,
     showMessage (if camera_enabled w then "No camera frame yet."
                  else "Camera disabled.") w,
     written)
  ∧ current_image_path (on_capture NamedTemporaryFile imwrite w written).1.2
    = current_image_path w
  ∧ temp_files (on_capture NamedTemporaryFile imwrite w written).1.2
    = temp_files w.
Proof.
  intros H. unfold on_capture. rewrite H.
  destruct (camera_enabled w); simpl; auto.
Qed.

(** C9 at a window whose camera runs and has given no frame yet. *)
Lemma on_capture_no_frame_witness :
  on_capture demo_tempfile demo_imwrite window_waiting []
  = (Returns tt, showMessage "No camera frame yet." window_waiting, []).
Proof.
  exact (proj1 (on_capture_no_frame unit demo_tempfile demo_imwrite
                  window_waiting [] eq_refl)).
Defined.

(** C9 as stated fails when the camera is disabled: no frame is stored,
    and the status message is "Camera disabled.", not the message about
    the missing frame. *)
Lemma on_capture_camera_off :
  last_frame window_camera_off = None
  ∧ status_message (on_capture demo_tempfile demo_imwrite window_camera_off []).1.2
    = "Camera disabled."
  ∧ String.eqb
      (status_message (on_capture demo_tempfile demo_imwrite window_camera_off []).1.2)
      "No camera frame yet." = false.
Proof. repeat split. Qed.

(** X3. With the camera enabled and a frame polled, [on_capture] takes a new
    temporary file, writes the frame to it, adds its path to the list of
    temporary files, makes it the current image, enables the Identify
    button and reports the capture. *)
Theorem on_capture_frame (Frame : Type)
    (NamedTemporaryFile : string → outcome string)
    (imwrite : string → Frame → outcome bool)
    (w : MainWindow Frame) (written : list (string * Frame))
    (frame : Frame) (tmp_path : string) (ok : bool) :
  camera_enabled w = true →
  last_frame w = Some frame →
  NamedTemporaryFile ".jpg" = Returns tmp_path →
  imwrite tmp_path frame = Returns ok →
  ∃ w', on_capture NamedTemporaryFile imwrite w written
        = (Returns tt, w', (written ++ [(tmp_path, frame)])%list)
        ∧ current_image_path w' = Some tmp_path
        ∧ temp_files w' = (temp_files w ++ [tmp_path])%list
        ∧ last_frame w' = Some frame
        ∧ identify_btn_enabled w' = true
        ∧ status_message w' = "Captured frame. Ready to identify.".
Proof.
  intros He Hf Ht Hw. unfold on_capture. rewrite He, Hf, Ht. simpl.
  rewrite Hw. eexists. split; [reflexivity|]. simpl. auto.
Qed.

(** X3 at a window that holds a frame. *)
Lemma on_capture_frame_witness :
  ∃ w', on_capture demo_tempfile demo_imwrite window_with_frame []
        = (Returns tt, w', [("/tmp/tmp0.jpg", tt)])
        ∧ current_image_path w' = Some "/tmp/tmp0.jpg"
        ∧ temp_files w' = ["/tmp/tmp0.jpg"]
        ∧ last_frame w' = Some tt
        ∧ identify_btn_enabled w' = true
        ∧ status_message w' = "Captured frame. Ready to identify.".
Proof.
  exact (on_capture_frame unit demo_tempfile demo_imwrite window_with_frame []
           tt "/tmp/tmp0.jpg" true eq_refl eq_refl eq_refl eq_refl).
Defined.

(** ** Settings read from the environment *)

Lemma lower_char_idem c : lower_char (lower_char c) = lower_char c.
Proof. destruct c as [[] [] [] [] [] [] [] []]; reflexivity. Qed.

Lemma lower_idem s : lower (lower s) = lower s.
Proof.
  induction s as [|c r IH]; simpl; [reflexivity|].
  rewrite lower_char_idem, IH. reflexivity.
Qed.

Lemma env_bool_set environ name v d :
  _env_bool (<[name := v]> environ) name d
  = bool_decide (lower (strip v) ∉ FALSE_WORDS).
Proof. unfold _env_bool. rewrite lookup_insert_eq. reflexivity. Qed.

(** X4. What [_env_bool] returns for a variable that is set depends
    neither on the white space around the value, nor on the case of its
    letters, nor on the default. *)
Theorem env_bool_spelling (environ : gmap string string)
    (name w1 v w2 : string) (d d' : bool) :
  all_space w1 = true → all_space w2 = true →
  _env_bool (<[name := w1 ++ v ++ w2]> environ) name d
  = _env_bool (<[name := v]> environ) name d'
  ∧ _env_bool (<[name := lower v]> environ) name d
    = _env_bool (<[name := v]> environ) name d'.
Proof.
  intros H1 H2. rewrite !env_bool_set.
  rewrite strip_app_space by assumption.
  rewrite strip_lower, lower_idem. split; reflexivity.
Qed.

(** X4 at the value "Off" with a space before it and a line break after
    it. *)
Lemma env_bool_spelling_witness :
  _env_bool (<["CAMERA_ENABLED" := " " ++ "Off" ++ nl]> ∅) "CAMERA_ENABLED" true
  = _env_bool (<["CAMERA_ENABLED" := "Off"]> ∅) "CAMERA_ENABLED" false.
Proof.
  exact (proj1 (env_bool_spelling ∅ "CAMERA_ENABLED" " " "Off" nl true false
                  eq_refl eq_refl)).
Defined.

(** X5. A variable that is set to nothing but white space, the empty
    text included, switches the setting off, whatever the default. *)
Theorem env_bool_blank (environ : gmap string string) (name v : string)
    (d : bool) :
  all_space v = true →
  _env_bool (<[name := v]> environ) name d = false.
Proof.
  intros H. rewrite env_bool_set. unfold strip.
  rewrite (rstrip_all_space v H). reflexivity.
Qed.

(** X5 at a value of two spaces. *)
Lemma env_bool_blank_witness :
  _env_bool (<["CAMERA_ENABLED" := "  "]> ∅) "CAMERA_ENABLED" true = false.
Proof. exact (env_bool_blank ∅ "CAMERA_ENABLED" "  " true eq_refl). Defined.

(** ** The OpenCV backend *)

Lemma backend_map_lookup cv2 k :
  backend_map cv2 !! k =
    if decide (k = "msmf") then Some (default 0%Z (CAP_MSMF cv2))
    else if decide (k = "dshow") then Some (default 0%Z (CAP_DSHOW cv2))
    else if decide (k = "avfoundation")
    then Some (default 0%Z (CAP_AVFOUNDATION cv2))
    else if decide (k = "v4l2") then Some (default 0%Z (CAP_V4L2 cv2))
    else if decide (k = "auto") then Some 0%Z
    else None.
Proof.
  unfold backend_map.
  repeat (rewrite lookup_insert; case_decide; subst;
          [repeat case_decide; congruence|]).
  rewrite lookup_empty. repeat case_decide; congruence.
Qed.

(** X6. With CAMERA_BACKEND unset, empty or spelling "auto",
    [choose_opencv_backend] returns 0 on every platform and for every
    OpenCV build: the platform is looked at only for a name that is not
    known. *)
Theorem choose_opencv_backend_auto (environ : gmap string string) (cv2 : Cv2)
    (platform : string) :
  (∀ v, environ !! "CAMERA_BACKEND" = Some v →
        v = "" ∨ lower (strip v) = "auto") →
  choose_opencv_backend environ cv2 platform = 0%Z.
Proof.
  intros H. unfold choose_opencv_backend.
  destruct (environ !! "CAMERA_BACKEND") as [v|] eqn:E.
  - change (default "auto" (Some v)) with v.
    destruct (H v eq_refl) as [-> | Hv]; [reflexivity|].
    rewrite or_else_nonempty by (intros ->; discriminate Hv).
    rewrite Hv. reflexivity.
  - reflexivity.
Qed.

(** X6 on Linux with nothing set. *)
Lemma choose_opencv_backend_auto_witness :
  choose_opencv_backend ∅ demo_cv2 "linux" = 0%Z.
Proof.
  refine (choose_opencv_backend_auto ∅ demo_cv2 "linux" _).
  intros v H. rewrite lookup_empty in H. discriminate H.
Defined.

(** X7. With CAMERA_BACKEND set to a text that is not empty, the text
    is read without the white space around it and in lower case.  One
    of the five names gives the constant of that backend (0 for "auto"
    and for a constant the build lacks) on every platform; any other text
    gives V4L2 on a platform whose name starts with "linux", AVFoundation
    on "darwin" and 0 elsewhere. *)
Theorem choose_opencv_backend_override (environ : gmap string string)
    (cv2 : Cv2) (platform v : string) :
  environ !! "CAMERA_BACKEND" = Some v → v ≠ "" →
  choose_opencv_backend environ cv2 platform =
    let pref := lower (strip v) in
    if decide (pref = "auto") then 0%Z
    else if decide (pref = "v4l2") then default 0%Z (CAP_V4L2 cv2)
    else if decide (pref = "avfoundation")
    then default 0%Z (CAP_AVFOUNDATION cv2)
    else if decide (pref = "dshow") then default 0%Z (CAP_DSHOW cv2)
    else if decide (pref = "msmf") then default 0%Z (CAP_MSMF cv2)
    else if startswith platform "linux" then default 0%Z (CAP_V4L2 cv2)
    else if decide (platform = "darwin")
    then default 0%Z (CAP_AVFOUNDATION cv2)
    else 0%Z.
Proof.
  intros E Hv. unfold choose_opencv_backend. rewrite E. simpl default at 1.
  rewrite or_else_nonempty by assumption. cbv zeta.
  rewrite !backend_map_lookup. simpl.
  repeat case_decide; try congruence; try reflexivity.
  all: destruct (startswith platform "linux"); try reflexivity.
  all: destruct (String.eqb_spec platform "darwin"); congruence.
Qed.

(** X7 on Linux, at a known name in another spelling and at a name that
    is not known. *)
Lemma choose_opencv_backend_override_witness :
  choose_opencv_backend (<["CAMERA_BACKEND" := " DShow "]> ∅) demo_cv2 "linux"
  = 700%Z
  ∧ choose_opencv_backend (<["CAMERA_BACKEND" := "gstreamer"]> ∅) demo_cv2 "linux"
    = 200%Z.
Proof.
  split.
  - exact (choose_opencv_backend_override (<["CAMERA_BACKEND" := " DShow "]> ∅)
             demo_cv2 "linux" " DShow " eq_refl ltac:(discriminate)).
  - exact (choose_opencv_backend_override (<["CAMERA_BACKEND" := "gstreamer"]> ∅)
             demo_cv2 "linux" "gstreamer" eq_refl ltac:(discriminate)).
Defined.

(** ** The start of the camera *)

Ltac in_list :=
  cbn [app];
  solve [repeat first [apply list_elem_of_here | apply list_elem_of_further]].

Ltac inv_in H :=
  cbn [app] in H;
  repeat (apply elem_of_cons in H as [H|H];
          [try discriminate H; try (injection H as <-)|]);
  try (apply elem_of_nil in H; destruct H).

Ltac app_cbv :=
  cbv [_start_camera VideoCapture cap_set timer_start status set_capture_btn
       set_cap set_timer set_window set_image_label call window cap
       timer_interval capture_btn_enabled image_label camera_index
       camera_width camera_height camera_timer_ms device_calls negb fst snd
       mbind outcome_bind] in *.

(** The bounds of a C [int] and of a C [double] as inequalities. *)
Lemma in_c_int_spec z :
  in_c_int z = true ↔ (- 2 ^ 31 ≤ z < 2 ^ 31)%Z.
Proof. unfold in_c_int. rewrite andb_true_iff, !Z.leb_le. lia. Qed.

Lemma fits_double_spec z :
  fits_double z = true ↔ (Z.abs z < 2 ^ 1024 - 2 ^ 970)%Z.
Proof. unfold fits_double. apply Z.ltb_lt. Qed.

Section CameraFacts.

Variable Frame : Type.
Variable env : gmap string string.
Variable cv2 : Cv2.
Variable platform : string.
Variable isOpened : Cap → bool.
Variable cv2_error_message : Z → string.
Variable set_error timer_error : Z → exn.

#[local] Abbreviation start :=
  (_start_camera env cv2 platform isOpened cv2_error_message set_error
     timer_error).

Ltac start_cases :=
  repeat match goal with
  | |- context [in_c_int ?z] =>
      let E := fresh "E" in destruct (in_c_int z) eqn:E
  | |- context [isOpened ?c] =>
      let E := fresh "E" in destruct (isOpened c) eqn:E
  | |- context [fits_double ?z] =>
      let E := fresh "E" in destruct (fits_double z) eqn:E
  end.

(** What [_start_camera] leaves as it is, returning or raising: the
    settings, the image label and all of the window but the status
    message. *)
Lemma start_camera_keeps (a : App Frame) :
  camera_index (start a).2 = camera_index a
  ∧ camera_width (start a).2 = camera_width a
  ∧ camera_height (start a).2 = camera_height a
  ∧ camera_timer_ms (start a).2 = camera_timer_ms a
  ∧ image_label (start a).2 = image_label a
  ∧ window (start a).2
    = showMessage (status_message (window (start a).2)) (window a).
Proof.
  destruct a as [[en lf cur tf sm lp ib rl cl nt] [c0|] t cb il ci cw ch ct dc];
    app_cbv; generalize (pretty ci); intros digits;
    destruct (choose_opencv_backend env cv2 platform =? 0)%Z;
    start_cases; repeat split.
Qed.

(** [_start_camera] returns when the bindings can convert the four
    settings. *)
Lemma start_camera_returns (a : App Frame) :
  in_c_int (camera_index a) = true →
  fits_double (camera_width a) = true →
  fits_double (camera_height a) = true →
  in_c_int (camera_timer_ms a) = true →
  (start a).1 = Returns tt.
Proof.
  destruct a as [w [c0|] t cb il ci cw ch ct dc]; app_cbv;
    intros Hi Hw Hh Ht; rewrite Hi;
    destruct (choose_opencv_backend env cv2 platform =? 0)%Z;
    start_cases; try reflexivity; congruence.
Qed.

(** X8. When the index is one the binding takes, a C [int], and the
    device opens with no backend, [_start_camera] returns: the status
    reads "Camera N not available.", the Capture button is disabled, the
    poll timer is not started and no size is asked of the device; the
    rest of the window is as before. *)
Theorem start_camera_unavailable (a : App Frame) :
  in_c_int (camera_index a) = true →
  (∀ api, isOpened (mkCap (camera_index a) api) = false) →
  ∃ new,
    start a
    = (Returns tt,
       {| window := showMessage ("Camera " ++ pretty (camera_index a)
                                 ++ " not available.") (window a);
          cap := Some (mkCap (camera_index a) None);
          timer_interval := timer_interval a;
          capture_btn_enabled := false;
          image_label := image_label a;
          camera_index := camera_index a;
          camera_width := camera_width a;
          camera_height := camera_height a;
          camera_timer_ms := camera_timer_ms a;
          device_calls := (device_calls a ++ new)%list |})
    ∧ Forall (λ c, ∀ h prop value, c ≠ CallSet h prop value) new.
Proof.
  intros Hi H. destruct a as [w [c0|] t cb il ci cw ch ct dc]; app_cbv;
    rewrite Hi;
    destruct (choose_opencv_backend env cv2 platform =? 0)%Z;
    rewrite ?H; rewrite <- ?List.app_assoc;
    (eexists; split; [reflexivity|]);
    repeat constructor; discriminate.
Qed.

(** X9. When the backend chosen is not 0 and the device does not open
    with it but opens without a backend, the index and the interval being
    C [int]s and the width and the height C [double]s: the first handle
    is released, the second is kept, the width and the height are asked
    of it, the timer is started with the interval set, and the status
    reads "Live camera running (index N).". *)
Theorem start_camera_fallback (a : App Frame) (backend : Z) :
  cap a = None →
  choose_opencv_backend env cv2 platform = backend → backend ≠ 0%Z →
  isOpened (mkCap (camera_index a) (Some backend)) = false →
  isOpened (mkCap (camera_index a) None) = true →
  in_c_int (camera_index a) = true →
  fits_double (camera_width a) = true →
  fits_double (camera_height a) = true →
  in_c_int (camera_timer_ms a) = true →
  let first := mkCap (camera_index a) (Some backend) in
  let second := mkCap (camera_index a) None in
  start a
  = (Returns tt,
     {| window := showMessage ("Live camera running (index "
                               ++ pretty (camera_index a) ++ ").") (window a);
        cap := Some second;
        timer_interval := Some (camera_timer_ms a);
        capture_btn_enabled := capture_btn_enabled a;
        image_label := image_label a;
        camera_index := camera_index a;
        camera_width := camera_width a;
        camera_height := camera_height a;
        camera_timer_ms := camera_timer_ms a;
        device_calls :=
          (device_calls a
           ++ [CallOpen first; CallRelease first; CallOpen second;
               CallSet second "CAP_PROP_FRAME_WIDTH" (camera_width a);
               CallSet second "CAP_PROP_FRAME_HEIGHT" (camera_height a)])%list |}).
Proof.
  intros Hc Hb Hn H1 H2 Hi Hw Hh Ht. apply Z.eqb_neq in Hn.
  destruct a as [w c t cb il ci cw ch ct dc]. app_cbv. subst c.
  rewrite Hb, Hn, Hi, H1, H2, Hw, Hh, Ht, <- !List.app_assoc. reflexivity.
Qed.

(** X10. For an index that is a C [int], [_start_camera] ends with a
    handle stored, the one made last, whatever the device does.  Every
    other handle it made it has released, and so the handle stored
    before the call.  When the stored handle is not open the call
    returns, the timer is left alone and the Capture button is disabled.
    When it is open, the call does what the two [set] calls and the start
    of the timer do, in this order: it returns when the sizes are C
    [double]s and the interval is a C [int], and then the timer runs
    with the interval set; it raises when one of them is not, and then
    the timer is left alone.  For an index that is no C [int], the call
    raises [cv2.error]: the handle stored before is released and none is
    stored, and the timer, the button and the status are as they
    were. *)
Theorem start_camera_handles (a : App Frame) :
  (in_c_int (camera_index a) = true →
   ∃ new c,
     device_calls (start a).2 = (device_calls a ++ new)%list
     ∧ cap (start a).2 = Some c
     ∧ CallOpen c ∈ new
     ∧ (∀ c', CallOpen c' ∈ new → c' = c ∨ CallRelease c' ∈ new)
     ∧ (∀ c0, cap a = Some c0 → CallRelease c0 ∈ new)
     ∧ (isOpened c = false →
        (start a).1 = Returns tt
        ∧ timer_interval (start a).2 = timer_interval a
        ∧ capture_btn_enabled (start a).2 = false)
     ∧ (isOpened c = true →
        (start a).1
        = (cap_set set_error c "CAP_PROP_FRAME_WIDTH" (camera_width a) ≫= λ _,
           cap_set set_error c "CAP_PROP_FRAME_HEIGHT" (camera_height a) ≫= λ _,
           timer_start timer_error (camera_timer_ms a))
        ∧ (fits_double (camera_width a) = true →
           fits_double (camera_height a) = true →
           in_c_int (camera_timer_ms a) = true →
           (start a).1 = Returns tt)
        ∧ ((start a).1 = Returns tt →
           timer_interval (start a).2 = Some (camera_timer_ms a))
        ∧ (∀ e, (start a).1 = Raises e →
             timer_interval (start a).2 = timer_interval a)
        ∧ capture_btn_enabled (start a).2 = capture_btn_enabled a))
  ∧ (in_c_int (camera_index a) = false →
     (start a).1 = Raises (Cv2Error (cv2_error_message (camera_index a)))
     ∧ cap (start a).2 = None
     ∧ device_calls (start a).2
       = (device_calls a
          ++ match cap a with
             | Some c0 => [CallRelease c0]
             | None => []
             end)%list
     ∧ timer_interval (start a).2 = timer_interval a
     ∧ capture_btn_enabled (start a).2 = capture_btn_enabled a
     ∧ window (start a).2 = window a).
Proof.
  split; intros Hi.
  - destruct a as [w [c0|] t cb il ci cw ch ct dc]; app_cbv; rewrite Hi;
      generalize (pretty ci); intros digits;
      destruct (choose_opencv_backend env cv2 platform =? 0)%Z;
      start_cases;
      rewrite <- ?List.app_assoc;
      (eexists; eexists; split; [reflexivity|]);
      (split; [reflexivity|]);
      (split; [in_list|]);
      (split; [intros c' Hc'; inv_in Hc'; (left; reflexivity) || (right; in_list)|]);
      (split; [intros c1 H1; try discriminate H1; injection H1 as <-; in_list|]);
      (split; intros; [try congruence; repeat split|]);
      try congruence; repeat split; intros; congruence.
  - destruct a as [w [c0|] t cb il ci cw ch ct dc]; app_cbv; rewrite Hi;
      destruct (choose_opencv_backend env cv2 platform =? 0)%Z;
      rewrite ?app_nil_r; repeat split.
Qed.

End CameraFacts.

(** X8 on Linux with nothing set, for a device that never opens. *)
Lemma start_camera_unavailable_witness :
  (_start_camera ∅ demo_cv2 "linux" no_camera demo_cv2_error demo_set_error
     demo_timer_error (window_before_camera (Frame:=unit) true 0 1280 720 33)).1
  = Returns tt
  ∧ status_message
      (window (_start_camera ∅ demo_cv2 "linux" no_camera demo_cv2_error
                 demo_set_error demo_timer_error
                 (window_before_camera (Frame:=unit) true 0 1280 720 33)).2)
    = "Camera 0 not available."
  ∧ capture_btn_enabled
      (_start_camera ∅ demo_cv2 "linux" no_camera demo_cv2_error
         demo_set_error demo_timer_error
         (window_before_camera (Frame:=unit) true 0 1280 720 33)).2
    = false.
Proof.
  destruct (start_camera_unavailable unit ∅ demo_cv2 "linux" no_camera
              demo_cv2_error demo_set_error demo_timer_error
              (window_before_camera true 0 1280 720 33) eq_refl (λ _, eq_refl))
    as [new [E _]].
  rewrite E. repeat split.
Defined.

(** X9 with CAMERA_BACKEND set to "v4l2", for a device that opens
    without a backend only. *)
Lemma start_camera_fallback_witness :
  (_start_camera (<["CAMERA_BACKEND" := "v4l2"]> ∅) demo_cv2 "linux"
     default_backend_only demo_cv2_error demo_set_error demo_timer_error
     (window_before_camera (Frame:=unit) true 0 1280 720 33)).1
  = Returns tt
  ∧ device_calls
      (_start_camera (<["CAMERA_BACKEND" := "v4l2"]> ∅) demo_cv2 "linux"
         default_backend_only demo_cv2_error demo_set_error demo_timer_error
         (window_before_camera (Frame:=unit) true 0 1280 720 33)).2
    = [CallOpen (mkCap 0 (Some 200%Z)); CallRelease (mkCap 0 (Some 200%Z));
       CallOpen (mkCap 0 None);
       CallSet (mkCap 0 None) "CAP_PROP_FRAME_WIDTH" 1280;
       CallSet (mkCap 0 None) "CAP_PROP_FRAME_HEIGHT" 720].
Proof.
  assert (choose_opencv_backend (<["CAMERA_BACKEND" := "v4l2"]> ∅)
            demo_cv2 "linux" = 200%Z) as Hb by (vm_compute; reflexivity).
  assert (200 ≠ 0)%Z as Hn by discriminate.
  assert (fits_double 1280 = true) as Hw by (vm_compute; reflexivity).
  assert (fits_double 720 = true) as Hh by (vm_compute; reflexivity).
  rewrite (start_camera_fallback unit (<["CAMERA_BACKEND" := "v4l2"]> ∅)
             demo_cv2 "linux" default_backend_only demo_cv2_error
             demo_set_error demo_timer_error
             (window_before_camera true 0 1280 720 33) 200%Z
             eq_refl Hb Hn eq_refl eq_refl eq_refl Hw Hh eq_refl).
  split; reflexivity.
Defined.

(** X10 at the index 2147483648, the first that is no C [int], with a
    handle stored before the call. *)
Lemma start_camera_handles_witness :
  (_start_camera ∅ demo_cv2 "linux" default_backend_only demo_cv2_error
     demo_set_error demo_timer_error
     (set_cap (Some (mkCap 0 None))
        (window_before_camera (Frame:=unit) true 2147483648 1280 720 33))).1
  = Raises (Cv2Error "Overload resolution failed")
  ∧ cap (_start_camera ∅ demo_cv2 "linux" default_backend_only demo_cv2_error
           demo_set_error demo_timer_error
           (set_cap (Some (mkCap 0 None))
              (window_before_camera (Frame:=unit) true 2147483648 1280 720 33))).2
    = None
  ∧ device_calls
      (_start_camera ∅ demo_cv2 "linux" default_backend_only demo_cv2_error
         demo_set_error demo_timer_error
         (set_cap (Some (mkCap 0 None))
            (window_before_camera (Frame:=unit) true 2147483648 1280 720 33))).2
    = [CallRelease (mkCap 0 None)].
Proof.
  destruct (proj2 (start_camera_handles unit ∅ demo_cv2 "linux"
                     default_backend_only demo_cv2_error demo_set_error
                     demo_timer_error
                     (set_cap (Some (mkCap 0 None))
                        (window_before_camera true 2147483648 1280 720 33)))
              eq_refl)
    as (H1 & H2 & H3 & _).
  split; [exact H1|]. split; [exact H2 | exact H3].
Defined.
(** ** The construction of the window *)

Lemma int_of_str_defaults lim :
  (lim = 0 ∨ 640 ≤ lim)%nat →
  int_of_str lim "0" = Some 0%Z ∧ int_of_str lim "1280" = Some 1280%Z
  ∧ int_of_str lim "720" = Some 720%Z ∧ int_of_str lim "33" = Some 33%Z.
Proof.
  intros H.
  assert (∀ n, (n ≤ 4)%nat → ((0 <? lim) && (lim <? n))%nat = false) as Hl.
  { intros n Hn. destruct H as [-> | H]; [reflexivity|].
    apply andb_false_intro2, Nat.ltb_ge. lia. }
  repeat split; unfold int_of_str;
    match goal with
    | |- context [skip_int_space ?s] =>
        let v := eval vm_compute in (skip_int_space s) in
        change (skip_int_space s) with v
    end; cbv beta iota zeta;
    match goal with
    | |- context [scan_digits ?p ?a ?d ?s] =>
        let v := eval vm_compute in (scan_digits p a d s) in
        change (scan_digits p a d s) with v
    end; cbv beta iota zeta;
    rewrite Hl by lia; reflexivity.
Qed.

Section InitFacts.

Variable Frame : Type.
Variable env : gmap string string.
Variable cv2 : Cv2.
Variable platform : string.
Variable isOpened : Cap → bool.
Variable cv2_error_message : Z → string.
Variable set_error timer_error : Z → exn.
Variable lim : nat.
Variable int_error_message : string → string.

#[local] Abbreviation start :=
  (_start_camera env cv2 platform isOpened cv2_error_message set_error
     timer_error).
#[local] Abbreviation init :=
  (__init__ Frame env cv2 platform isOpened cv2_error_message set_error
     timer_error lim int_error_message).
#[local] Abbreviation getenv := (getenv_int env lim int_error_message).

Lemma init_eq :
  init =
    index ← getenv "CAMERA_INDEX" "0";
    width ← getenv "CAMERA_WIDTH" "1280";
    height ← getenv "CAMERA_HEIGHT" "720";
    timer_ms ← getenv "CAMERA_TIMER_MS" "33";
    let enabled := _env_bool env "CAMERA_ENABLED" true in
    let a := window_before_camera enabled index width height timer_ms in
    if enabled then
      match start a with
      | (Returns _, a) => Returns a
      | (Raises e, _) => Raises e
      end
    else
      mret (set_capture_btn false
              (status "Camera disabled (CAMERA_ENABLED=0)." a)).
Proof. reflexivity. Qed.

(** The construction once the four settings are read. *)
Lemma init_settings index width height timer_ms :
  getenv "CAMERA_INDEX" "0" = Returns index →
  getenv "CAMERA_WIDTH" "1280" = Returns width →
  getenv "CAMERA_HEIGHT" "720" = Returns height →
  getenv "CAMERA_TIMER_MS" "33" = Returns timer_ms →
  init =
    let enabled := _env_bool env "CAMERA_ENABLED" true in
    let a := window_before_camera enabled index width height timer_ms in
    if enabled then
      match start a with
      | (Returns _, a) => Returns a
      | (Raises e, _) => Raises e
      end
    else
      Returns (set_capture_btn false
                 (status "Camera disabled (CAMERA_ENABLED=0)." a)).
Proof. intros Hi Hw Hh Ht. rewrite init_eq, Hi, Hw, Hh, Ht. reflexivity. Qed.

Lemma init_returns a :
  init = Returns a →
  ∃ index width height timer_ms,
    a = (let enabled := _env_bool env "CAMERA_ENABLED" true in
         let b := window_before_camera enabled index width height timer_ms in
         if enabled then (start b).2
         else set_capture_btn false
                (status "Camera disabled (CAMERA_ENABLED=0)." b)).
Proof.
  rewrite init_eq.
  destruct (getenv "CAMERA_INDEX" "0") as [i|e]; [|discriminate].
  destruct (getenv "CAMERA_WIDTH" "1280") as [w|e]; [|discriminate].
  destruct (getenv "CAMERA_HEIGHT" "720") as [h|e]; [|discriminate].
  destruct (getenv "CAMERA_TIMER_MS" "33") as [t|e]; [|discriminate].
  cbn [mbind outcome_bind mret outcome_ret]. cbv zeta.
  destruct (_env_bool env "CAMERA_ENABLED" true).
  - destruct (start (window_before_camera true i w h t)) as [[[]|e] b] eqn:E;
      [|discriminate].
    intros [= <-]. exists i, w, h, t. rewrite E. reflexivity.
  - intros [= <-]. eauto.
Qed.

(** X11. With none of the four camera settings in the environment (and
    the digit limit of [int] off or at least 640, as Python has it) the
    window is built with the index 0, the size 1280 by 720 and the
    interval 33; with CAMERA_ENABLED unset as well, the camera is
    enabled. *)
Theorem init_defaults :
  (lim = 0 ∨ 640 ≤ lim)%nat →
  env !! "CAMERA_INDEX" = None → env !! "CAMERA_WIDTH" = None →
  env !! "CAMERA_HEIGHT" = None → env !! "CAMERA_TIMER_MS" = None →
  ∃ a, __init__ Frame env cv2 platform isOpened cv2_error_message set_error
         timer_error lim int_error_message = Returns a
       ∧ camera_index a = 0%Z ∧ camera_width a = 1280%Z
       ∧ camera_height a = 720%Z ∧ camera_timer_ms a = 33%Z
       ∧ (env !! "CAMERA_ENABLED" = None → camera_enabled (window a) = true).
Proof.
  intros Hl Hi Hw Hh Ht.
  destruct (int_of_str_defaults lim Hl) as (E0 & E1 & E2 & E3).
  rewrite (init_settings 0 1280 720 33)
    by (unfold getenv_int;
        rewrite ?Hi, ?Hw, ?Hh, ?Ht; cbn [default from_option id];
        rewrite ?E0, ?E1, ?E2, ?E3; reflexivity).
  cbv zeta.
  assert (∀ en, ∃ b : App Frame,
            start (window_before_camera en 0 1280 720 33) = (Returns tt, b)
            ∧ camera_index b = 0%Z ∧ camera_width b = 1280%Z
            ∧ camera_height b = 720%Z ∧ camera_timer_ms b = 33%Z
            ∧ camera_enabled (window b) = en) as Hs.
  { intros en.
    pose proof (start_camera_returns Frame env cv2 platform isOpened
                  cv2_error_message set_error timer_error
                  (window_before_camera en 0 1280 720 33)
                  eq_refl ltac:(vm_compute; reflexivity)
                  ltac:(vm_compute; reflexivity) eq_refl) as Hr.
    destruct (start_camera_keeps Frame env cv2 platform isOpened
                cv2_error_message set_error timer_error
                (window_before_camera en 0 1280 720 33))
      as (H1 & H2 & H3 & H4 & _ & H6).
    destruct (start (window_before_camera en 0 1280 720 33)) as [o b].
    cbn [fst snd] in *. subst o. exists b.
    split; [reflexivity|]. rewrite H1, H2, H3, H4, H6. repeat split. }
  unfold _env_bool.
  destruct (env !! "CAMERA_ENABLED") as [v|].
  - destruct (bool_decide _).
    + destruct (Hs true) as (b & -> & ? & ? & ? & ? & ?). exists b.
      repeat split; try assumption. discriminate.
    + eexists. split; [reflexivity|]. repeat split. discriminate.
  - destruct (Hs true) as (b & -> & ? & ? & ? & ? & ?). exists b.
    repeat split; try assumption. intros _. assumption.
Qed.

(** X12. A camera setting that [int] does not accept, an empty value
    for one, makes the construction of the window raise [ValueError],
    with the camera enabled or not. *)
Theorem init_bad_setting (name v : string) :
  name ∈ ["CAMERA_INDEX"; "CAMERA_WIDTH"; "CAMERA_HEIGHT"; "CAMERA_TIMER_MS"] →
  env !! name = Some v → int_of_str lim v = None →
  ∃ msg, __init__ Frame env cv2 platform isOpened cv2_error_message set_error
           timer_error lim int_error_message
         = Raises (ValueError msg).
Proof.
  intros Hn Hv Hi. rewrite init_eq. unfold getenv_int.
  repeat match goal with
  | |- context [int_of_str lim (default ?d (env !! ?k))] =>
      let E := fresh "E" in
      destruct (int_of_str lim (default d (env !! k))) eqn:E;
      cbn [mbind outcome_bind]; [|eexists; reflexivity]
  end.
  exfalso.
  repeat (apply elem_of_cons in Hn as [-> | Hn];
          [rewrite Hv in *; cbn [default from_option id] in *; congruence|]).
  apply elem_of_nil in Hn. exact Hn.
Qed.

(** X13. The window as built holds no frame, no image and no temporary
    file, and Identify is disabled: a click on Identify reports "No
    image selected." and starts no job. *)
Theorem init_fresh_window (a : App Frame) (currentText : string) :
  __init__ Frame env cv2 platform isOpened cv2_error_message set_error
    timer_error lim int_error_message = Returns a →
  last_frame (window a) = None
  ∧ current_image_path (window a) = None
  ∧ temp_files (window a) = []
  ∧ identify_btn_enabled (window a) = false
  ∧ camera_enabled (window a) = _env_bool env "CAMERA_ENABLED" true
  ∧ on_identify currentText (window a)
    = (showMessage "No image selected." (window a), None).
Proof.
  intros (i & w & h & t & ->)%init_returns. cbv zeta.
  destruct (_env_bool env "CAMERA_ENABLED" true).
  - destruct (start_camera_keeps Frame env cv2 platform isOpened
                cv2_error_message set_error timer_error
                (window_before_camera true i w h t))
      as (_ & _ & _ & _ & _ & ->). repeat split.
  - repeat split.
Qed.

(** X14. With the camera switched off by CAMERA_ENABLED the window is
    built without a call to the device: no handle, the timer stopped,
    Capture disabled and the status "Camera disabled
    (CAMERA_ENABLED=0).".  A tick of the timer then changes nothing, and
    a capture only reports "Camera disabled.". *)
Theorem init_camera_disabled (a : App Frame) :
  __init__ Frame env cv2 platform isOpened cv2_error_message set_error
    timer_error lim int_error_message = Returns a →
  _env_bool env "CAMERA_ENABLED" true = false →
  cap a = None ∧ device_calls a = [] ∧ timer_interval a = None
  ∧ capture_btn_enabled a = false
  ∧ status_message (window a) = "Camera disabled (CAMERA_ENABLED=0)."
  ∧ (∀ qpixmap_from_bgr read,
       _update_camera_frame qpixmap_from_bgr read a = (Returns tt, a))
  ∧ (∀ NamedTemporaryFile imwrite written,
       capture NamedTemporaryFile imwrite a written
       = (Returns tt, status "Camera disabled." a, written)).
Proof.
  intros (i & w & h & t & ->)%init_returns He. rewrite He. cbv zeta.
  repeat split.
Qed.

(** X15. With the camera enabled and four settings that [int] accepts,
    the construction of the window raises [cv2.error] when the index is
    no C [int]; it returns when the index is one and the device does not
    open, and when the device opens, the sizes are C [double]s and the
    interval is a C [int]; it raises when the device opens and one of
    the three is not.  The handle stored is the one made with the
    backend chosen when there is one and the device opens with it, and
    the one made without a backend otherwise.  When it is open the timer
    runs with the interval set, Capture is enabled and the status reads
    "Live camera running (index N)."; when it is not, the timer is
    stopped, Capture is disabled and the status reads "Camera N not
    available.". *)
Theorem init_camera_enabled (index width height timer_ms : Z) :
  _env_bool env "CAMERA_ENABLED" true = true →
  getenv_int env lim int_error_message "CAMERA_INDEX" "0" = Returns index →
  getenv_int env lim int_error_message "CAMERA_WIDTH" "1280" = Returns width →
  getenv_int env lim int_error_message "CAMERA_HEIGHT" "720" = Returns height →
  getenv_int env lim int_error_message "CAMERA_TIMER_MS" "33" = Returns timer_ms →
  let built :=
    __init__ Frame env cv2 platform isOpened cv2_error_message set_error
      timer_error lim int_error_message in
  let backend := choose_opencv_backend env cv2 platform in
  let c :=
    if (backend =? 0)%Z || negb (isOpened (mkCap index (Some backend)))
    then mkCap index None
    else mkCap index (Some backend) in
  (in_c_int index = false →
   built = Raises (Cv2Error (cv2_error_message index)))
  ∧ (in_c_int index = true → isOpened c = false →
     ∃ a, built = Returns a
          ∧ cap a = Some c
          ∧ timer_interval a = None
          ∧ capture_btn_enabled a = false
          ∧ status_message (window a)
            = "Camera " ++ pretty index ++ " not available.")
  ∧ (in_c_int index = true → isOpened c = true →
     fits_double width = true → fits_double height = true →
     in_c_int timer_ms = true →
     ∃ a, built = Returns a
          ∧ cap a = Some c
          ∧ timer_interval a = Some timer_ms
          ∧ capture_btn_enabled a = true
          ∧ status_message (window a)
            = "Live camera running (index " ++ pretty index ++ ").")
  ∧ (in_c_int index = true → isOpened c = true →
     fits_double width && fits_double height && in_c_int timer_ms = false →
     ∃ e, built = Raises e).
Proof.
  intros He Hi Hw Hh Ht built backend c. subst built.
  rewrite (init_settings index width height timer_ms Hi Hw Hh Ht), He.
  cbv zeta. subst c backend. unfold window_before_camera. app_cbv.
  destruct (choose_opencv_backend env cv2 platform =? 0)%Z;
    cbn [orb];
    destruct (in_c_int index) eqn:Ei;
    repeat match goal with
    | |- context [isOpened ?c] =>
        let E := fresh "E" in destruct (isOpened c) eqn:E
    end;
    cbn [negb]; rewrite ?E, ?E0; repeat apply conj.
  all: try (intros; congruence).
  all: try (intros _; reflexivity).
  all: try (intros _ _; eexists; split; [reflexivity|]; repeat split; fail).
  all: try (intros _ _ -> -> ->; eexists; split; [reflexivity|];
            repeat split; fail).
  all: intros _ _;
    destruct (fits_double width), (fits_double height), (in_c_int timer_ms);
    try discriminate; intros _; eexists; reflexivity.
Qed.

End InitFacts.

(** X11 with an empty environment, on Linux without a camera. *)
Lemma init_defaults_witness :
  ∃ a, app_no_camera = Returns a
       ∧ camera_index a = 0%Z ∧ camera_width a = 1280%Z
       ∧ camera_height a = 720%Z ∧ camera_timer_ms a = 33%Z.
Proof.
  assert (4300 = 0 ∨ 640 ≤ 4300)%nat as Hl by (right; lia).
  assert (∀ k : string, (∅ : gmap string string) !! k = None) as He
    by (intros k; apply lookup_empty).
  destruct (init_defaults unit ∅ demo_cv2 "linux" no_camera demo_cv2_error
              demo_set_error demo_timer_error 4300 demo_int_error
              Hl (He _) (He _) (He _) (He _))
    as (a & E & Hi & Hw & Hh & Ht & _).
  exists a. auto.
Defined.

(** X12 with the camera switched off and a width with a unit. *)
Lemma init_bad_setting_witness :
  ∃ msg,
    __init__ unit (<["CAMERA_WIDTH" := "1280px"]> (<["CAMERA_ENABLED" := "0"]> ∅))
      demo_cv2 "linux" no_camera demo_cv2_error demo_set_error
      demo_timer_error 4300 demo_int_error
    = Raises (ValueError msg).
Proof.
  refine (init_bad_setting unit
            (<["CAMERA_WIDTH" := "1280px"]> (<["CAMERA_ENABLED" := "0"]> ∅))
            demo_cv2 "linux" no_camera demo_cv2_error demo_set_error
            demo_timer_error 4300 demo_int_error
            "CAMERA_WIDTH" "1280px" _ eq_refl eq_refl).
  apply list_elem_of_further, list_elem_of_here.
Defined.

(** X13 with an empty environment, on Linux without a camera. *)
Lemma init_fresh_window_witness :
  on_identify "Pond"
    (window (_start_camera ∅ demo_cv2 "linux" no_camera demo_cv2_error
               demo_set_error demo_timer_error
               (window_before_camera (Frame:=unit) true 0 1280 720 33)).2)
  = (showMessage "No image selected."
       (window (_start_camera ∅ demo_cv2 "linux" no_camera demo_cv2_error
                  demo_set_error demo_timer_error
                  (window_before_camera (Frame:=unit) true 0 1280 720 33)).2),
     None).
Proof.
  refine (proj2 (proj2 (proj2 (proj2 (proj2
    (init_fresh_window unit ∅ demo_cv2 "linux" no_camera demo_cv2_error
       demo_set_error demo_timer_error 4300 demo_int_error
       (_start_camera ∅ demo_cv2 "linux" no_camera demo_cv2_error
          demo_set_error demo_timer_error
          (window_before_camera true 0 1280 720 33)).2 "Pond" _)))))).
  vm_compute. reflexivity.
Defined.

(** X14 with CAMERA_ENABLED set to "0". *)
Lemma init_camera_disabled_witness :
  capture demo_tempfile demo_imwrite
    (set_capture_btn false
       (status "Camera disabled (CAMERA_ENABLED=0)."
          (window_before_camera (Frame:=unit) false 0 1280 720 33))) []
  = (Returns tt,
     status "Camera disabled."
       (set_capture_btn false
          (status "Camera disabled (CAMERA_ENABLED=0)."
             (window_before_camera (Frame:=unit) false 0 1280 720 33))),
     []).
Proof.
  refine (proj2 (proj2 (proj2 (proj2 (proj2 (proj2
    (init_camera_disabled unit (<["CAMERA_ENABLED" := "0"]> ∅) demo_cv2 "linux"
       no_camera demo_cv2_error demo_set_error demo_timer_error
       4300 demo_int_error
       (set_capture_btn false
          (status "Camera disabled (CAMERA_ENABLED=0)."
             (window_before_camera false 0 1280 720 33))) _ _))))))
    demo_tempfile demo_imwrite []).
  - vm_compute. reflexivity.
  - vm_compute. reflexivity.
Defined.

(** X15 on Linux for a device that opens without a backend: with an
    empty environment the window is built and the timer runs, and with
    CAMERA_INDEX set to 2147483648 the construction raises. *)
Lemma init_camera_enabled_witness :
  (∃ a, __init__ unit ∅ demo_cv2 "linux" default_backend_only demo_cv2_error
          demo_set_error demo_timer_error 4300 demo_int_error
        = Returns a
        ∧ cap a = Some (mkCap 0 None)
        ∧ timer_interval a = Some 33%Z)
  ∧ __init__ unit (<["CAMERA_INDEX" := "2147483648"]> ∅) demo_cv2 "linux"
      default_backend_only demo_cv2_error demo_set_error demo_timer_error
      4300 demo_int_error
    = Raises (Cv2Error "Overload resolution failed").
Proof.
  split.
  - assert (_env_bool ∅ "CAMERA_ENABLED" true = true) as He
      by (vm_compute; reflexivity).
    assert (getenv_int ∅ 4300 demo_int_error "CAMERA_INDEX" "0" = Returns 0%Z)
      as Hi by (vm_compute; reflexivity).
    assert (getenv_int ∅ 4300 demo_int_error "CAMERA_WIDTH" "1280"
            = Returns 1280%Z) as Hw by (vm_compute; reflexivity).
    assert (getenv_int ∅ 4300 demo_int_error "CAMERA_HEIGHT" "720"
            = Returns 720%Z) as Hh by (vm_compute; reflexivity).
    assert (getenv_int ∅ 4300 demo_int_error "CAMERA_TIMER_MS" "33"
            = Returns 33%Z) as Ht by (vm_compute; reflexivity).
    assert (fits_double 1280 = true) as Fw by (vm_compute; reflexivity).
    assert (fits_double 720 = true) as Fh by (vm_compute; reflexivity).
    assert (choose_opencv_backend ∅ demo_cv2 "linux" = 0%Z) as Hb
      by (vm_compute; reflexivity).
    pose proof (init_camera_enabled unit ∅ demo_cv2 "linux"
                  default_backend_only demo_cv2_error demo_set_error
                  demo_timer_error 4300 demo_int_error 0 1280 720 33
                  He Hi Hw Hh Ht) as H.
    cbv zeta in H. rewrite Hb in H. cbn [Z.eqb orb] in H.
    destruct H as (_ & _ & H & _).
    destruct (H eq_refl eq_refl Fw Fh eq_refl) as (a & E & Hc & Hm & _).
    exists a. split; [exact E|]. split; [exact Hc | exact Hm].
  - assert (_env_bool (<["CAMERA_INDEX" := "2147483648"]> ∅)
              "CAMERA_ENABLED" true = true) as He
      by (vm_compute; reflexivity).
    assert (getenv_int (<["CAMERA_INDEX" := "2147483648"]> ∅) 4300
              demo_int_error "CAMERA_INDEX" "0" = Returns 2147483648%Z)
      as Hi by (vm_compute; reflexivity).
    assert (getenv_int (<["CAMERA_INDEX" := "2147483648"]> ∅) 4300
              demo_int_error "CAMERA_WIDTH" "1280" = Returns 1280%Z)
      as Hw by (vm_compute; reflexivity).
    assert (getenv_int (<["CAMERA_INDEX" := "2147483648"]> ∅) 4300
              demo_int_error "CAMERA_HEIGHT" "720" = Returns 720%Z)
      as Hh by (vm_compute; reflexivity).
    assert (getenv_int (<["CAMERA_INDEX" := "2147483648"]> ∅) 4300
              demo_int_error "CAMERA_TIMER_MS" "33" = Returns 33%Z)
      as Ht by (vm_compute; reflexivity).
    exact (proj1 (init_camera_enabled unit (<["CAMERA_INDEX" := "2147483648"]> ∅)
                    demo_cv2 "linux" default_backend_only
                    demo_cv2_error demo_set_error demo_timer_error
                    4300 demo_int_error 2147483648 1280 720 33
                    He Hi Hw Hh Ht) eq_refl).
Defined.

(** ** The poll of the camera and the load of an image *)

Section WindowFacts.

Variable Frame : Type.
Variable qpixmap_from_bgr : Frame → outcome unit.
Variable pixmap_is_null : string → bool.

#[local] Abbreviation update := (_update_camera_frame qpixmap_from_bgr).
#[local] Abbreviation load := (on_load_image pixmap_is_null).

(** X16. A tick of the timer whose read fails, be it that the device
    says so or gives no frame, returns and changes nothing: the frame
    polled before stays the one a capture writes. *)
Theorem update_camera_frame_failed_read (read : Cap → bool * option Frame)
    (a : App Frame) :
  (∀ c, cap a = Some c → (read c).1 = false ∨ (read c).2 = None) →
  update read a = (Returns tt, a).
Proof.
  intros H. unfold _update_camera_frame.
  destruct (cap a) as [c|]; [|reflexivity].
  destruct (H c eq_refl) as [E|E]; destruct (read c) as [[] []];
    try reflexivity; discriminate E.
Qed.

(** X17. A tick that reads a frame stores it in place of the one
    before, even when the frame cannot be turned into a pixmap (the
    exception leaves the slot, and the image label stays); the capture
    that follows writes that frame and makes its file the current
    image. *)
Theorem update_camera_frame_then_capture (read : Cap → bool * option Frame)
    (NamedTemporaryFile : string → outcome string)
    (imwrite : string → Frame → outcome bool)
    (a : App Frame) (written : Writes Frame)
    (c : Cap) (frame : Frame) (tmp_path : string) (ok : bool) :
  cap a = Some c → read c = (true, Some frame) →
  camera_enabled (window a) = true →
  NamedTemporaryFile ".jpg" = Returns tmp_path →
  imwrite tmp_path frame = Returns ok →
  let a1 := (update read a).2 in
  last_frame (window a1) = Some frame
  ∧ (update read a).1 = (qpixmap_from_bgr frame ≫= λ _, Returns tt)
  ∧ (∀ e, qpixmap_from_bgr frame = Raises e → image_label a1 = image_label a)
  ∧ (capture NamedTemporaryFile imwrite a1 written).2
    = (written ++ [(tmp_path, frame)])%list
  ∧ current_image_path (window (capture NamedTemporaryFile imwrite a1 written).1.2)
    = Some tmp_path.
Proof.
  intros Hc Hr He Ht Hw. unfold _update_camera_frame. rewrite Hc, Hr.
  destruct a as [w c0 t cb il ci cw ch ct dc]. cbn in He.
  unfold capture, on_capture.
  destruct (qpixmap_from_bgr frame) as [[]|e]; cbn; rewrite He, Ht; cbn;
    rewrite Hw; repeat split; congruence.
Qed.

(** X18. Loading an image makes it the current image and enables
    Identify; with the camera enabled it stops the poll timer.  It keeps
    the handle, the frame polled last and the list of temporary files;
    so a capture that follows writes that earlier frame and makes it the
    current image in place of the one loaded, and the timer stays
    stopped. *)
Theorem load_image_then_capture
    (NamedTemporaryFile : string → outcome string)
    (imwrite : string → Frame → outcome bool)
    (a : App Frame) (written : Writes Frame)
    (file_path : string) (frame : Frame) (tmp_path : string) (ok : bool) :
  file_path ≠ "" →
  camera_enabled (window a) = true →
  last_frame (window a) = Some frame →
  NamedTemporaryFile ".jpg" = Returns tmp_path →
  imwrite tmp_path frame = Returns ok →
  let a1 := load file_path a in
  let a2 := (capture NamedTemporaryFile imwrite a1 written).1.2 in
  current_image_path (window a1) = Some file_path
  ∧ identify_btn_enabled (window a1) = true
  ∧ timer_interval a1 = None
  ∧ cap a1 = cap a ∧ device_calls a1 = device_calls a
  ∧ temp_files (window a1) = temp_files (window a)
  ∧ current_image_path (window a2) = Some tmp_path
  ∧ (capture NamedTemporaryFile imwrite a1 written).2
    = (written ++ [(tmp_path, frame)])%list
  ∧ timer_interval a2 = None.
Proof.
  intros Hp He Hf Ht Hw. unfold on_load_image.
  apply truthy_nonempty in Hp. rewrite Hp.
  destruct a as [[en lf cur tf sm lp ib rl cl nt] c0 t cb il ci cw ch ct dc].
  cbn in He, Hf. subst en lf.
  unfold capture, on_capture. cbn. rewrite Ht. cbn. rewrite Hw. repeat split.
Qed.

End WindowFacts.

(** X16 at a running window, for a read that fails. *)
Lemma update_camera_frame_failed_read_witness :
  _update_camera_frame demo_pixmap (λ _, (false, None)) app_running
  = (Returns tt, app_running).
Proof.
  exact (update_camera_frame_failed_read unit demo_pixmap (λ _, (false, None))
           app_running (λ c _, or_introl eq_refl)).
Defined.

(** X17 at a running window. *)
Lemma update_camera_frame_then_capture_witness :
  (capture demo_tempfile demo_imwrite
     (_update_camera_frame demo_pixmap (λ _, (true, Some tt)) app_running).2 []).2
  = [("/tmp/tmp0.jpg", tt)].
Proof.
  exact (proj1 (proj2 (proj2 (proj2
    (update_camera_frame_then_capture unit demo_pixmap (λ _, (true, Some tt))
       demo_tempfile demo_imwrite app_running [] (mkCap 0 None) tt
       "/tmp/tmp0.jpg" true eq_refl eq_refl eq_refl eq_refl eq_refl))))).
Defined.

(** X18 at a running window. *)
Lemma load_image_then_capture_witness :
  current_image_path
    (window (capture demo_tempfile demo_imwrite
               (on_load_image demo_is_null "leaf.png" app_running) []).1.2)
  = Some "/tmp/tmp0.jpg"
  ∧ timer_interval (on_load_image demo_is_null "leaf.png" app_running) = None.
Proof.
  pose proof (load_image_then_capture unit demo_is_null demo_tempfile
                demo_imwrite app_running [] "leaf.png" tt "/tmp/tmp0.jpg" true
                ltac:(discriminate) eq_refl eq_refl eq_refl eq_refl) as H.
  cbv zeta in H. destruct H as (_ & _ & Ht & _ & _ & _ & Hc & _).
  split; [exact Hc | exact Ht].
Defined.

(** ** The slots of the window, one event after another *)

Section SlotFacts.

Variable Frame : Type.
Variable qpixmap_from_bgr : Frame → outcome unit.
Variable pixmap_is_null : string → bool.
Variable setText_value : json → option string.
Variable format_value : json → string.

#[local] Abbreviation slot' :=
  (slot qpixmap_from_bgr pixmap_is_null setText_value format_value).
#[local] Abbreviation run_events' :=
  (run_events qpixmap_from_bgr pixmap_is_null setText_value format_value).

Lemma slot_camera_kept e a written :
  let a' := (slot' e (a, written)).1 in
  cap a' = cap a ∧ device_calls a' = device_calls a
  ∧ camera_index a' = camera_index a ∧ camera_width a' = camera_width a
  ∧ camera_height a' = camera_height a ∧ camera_timer_ms a' = camera_timer_ms a
  ∧ capture_btn_enabled a' = capture_btn_enabled a
  ∧ camera_enabled (window a') = camera_enabled (window a)
  ∧ (timer_interval a' = timer_interval a ∨ timer_interval a' = None).
Proof.
  destruct a as [[en lf cur tf sm lp ib rl cl nt] c0 t cb il ci cw ch ct dc].
  destruct e as [tmp wrote|txt|p|read|[r|m]]; cbn.
  - unfold capture, on_capture. cbn.
    destruct en, lf as [f|], tmp as [pth|e]; cbn; try (repeat split; auto; fail).
    destruct wrote; cbn; repeat split; auto.
  - unfold on_identify. cbn. destruct (env_truthy cur); cbn; repeat split; auto.
  - unfold on_load_image. destruct (truthy p); cbn; [|repeat split; auto].
    destruct en; cbn; repeat split; auto.
  - unfold _update_camera_frame. cbn.
    destruct c0 as [c|]; [|repeat split; auto].
    destruct (read c) as [[] [f|]]; cbn; try (repeat split; auto; fail).
    destruct (qpixmap_from_bgr f); cbn; repeat split; auto.
  - unfold _on_identify_success. destruct (setText_value _); cbn; repeat split; auto.
  - repeat split; auto.
Qed.

(** X19. Through any events the slots leave the capture device alone:
    the handle, the calls made on the device, the camera settings, the
    Capture button and the camera flag stay as they were.  No slot starts
    the poll timer: it keeps its interval or is stopped, and once stopped
    (by the load of an image) it stays stopped. *)
Theorem events_keep_camera (es : list (Event Frame)) (a : App Frame)
    (written : Writes Frame) :
  let a' := (run_events' es (a, written)).1 in
  cap a' = cap a ∧ device_calls a' = device_calls a
  ∧ camera_index a' = camera_index a ∧ camera_width a' = camera_width a
  ∧ camera_height a' = camera_height a ∧ camera_timer_ms a' = camera_timer_ms a
  ∧ capture_btn_enabled a' = capture_btn_enabled a
  ∧ camera_enabled (window a') = camera_enabled (window a)
  ∧ (timer_interval a' = timer_interval a ∨ timer_interval a' = None)
  ∧ (timer_interval a = None → timer_interval a' = None).
Proof.
  revert a written. induction es as [|e es IH]; intros a written.
  - cbn. repeat split; auto.
  - cbn [run_events].
    pose proof (slot_camera_kept e a written) as H. cbv zeta in H.
    destruct (slot' e (a, written)) as [a1 written1] eqn:Es.
    cbn [fst] in H.
    specialize (IH a1 written1). cbv zeta in IH |- *.
    destruct H as (? & ? & ? & ? & ? & ? & ? & ? & Ht).
    destruct IH as (? & ? & ? & ? & ? & ? & ? & ? & Ht' & Hn).
    repeat split; try congruence.
    + destruct Ht' as [E|E]; [|right; exact E].
      destruct Ht as [F|F]; [left | right]; congruence.
    + intros Ha. apply Hn. destruct Ht; congruence.
Qed.

Lemma slot_tracks e a written :
  let st := slot' e (a, written) in
  (∀ p, p ∈ temp_files (window a) → p ∈ temp_files (window st.1))
  ∧ (∀ p f, (p, f) ∈ st.2 →
            (p, f) ∈ written ∨ p ∈ temp_files (window st.1)).
Proof.
  destruct a as [[en lf cur tf sm lp ib rl cl nt] c0 t cb il ci cw ch ct dc].
  destruct e as [tmp wrote|txt|p|read|[r|m]]; cbn.
  - unfold capture, on_capture. cbn.
    destruct en, lf as [fr|], tmp as [pth|e]; cbn; try (split; auto; fail).
    destruct wrote; cbn.
    + split; [intros p Hp; apply elem_of_app; auto|].
      intros p f [H|H]%elem_of_app; [auto|].
      apply list_elem_of_singleton in H as [= -> ->].
      right. apply elem_of_app. right. apply list_elem_of_here.
    + split; [intros p Hp; apply elem_of_app; auto | auto].
  - unfold on_identify. cbn. destruct (env_truthy cur); cbn; split; auto.
  - unfold on_load_image. destruct (truthy p), en; cbn; split; auto.
  - unfold _update_camera_frame. cbn.
    destruct c0 as [c|]; [|split; auto].
    destruct (read c) as [[] [f|]]; cbn; try (split; auto; fail).
    destruct (qpixmap_from_bgr f); cbn; split; auto.
  - unfold _on_identify_success. destruct (setText_value _); cbn; split; auto.
  - split; auto.
Qed.

(** Every image written is written to a path on the list of temporary
    files, and no slot takes a path off that list. *)
Lemma run_events_tracks es a written :
  let st := run_events' es (a, written) in
  (∀ p, p ∈ temp_files (window a) → p ∈ temp_files (window st.1))
  ∧ (∀ p f, (p, f) ∈ st.2 →
            (p, f) ∈ written ∨ p ∈ temp_files (window st.1)).
Proof.
  revert a written. induction es as [|e es IH]; intros a written.
  - cbn. auto.
  - cbn [run_events].
    pose proof (slot_tracks e a written) as H. cbv zeta in H.
    destruct (slot' e (a, written)) as [a1 written1] eqn:Es.
    cbn [fst snd] in H.
    specialize (IH a1 written1). cbv zeta in IH |- *.
    destruct H as [H1 H2], IH as [I1 I2]. split; [auto|].
    intros p f Hpf. destruct (I2 p f Hpf) as [Hw|Ht]; [|auto].
    destruct (H2 p f Hw) as [Hw'|Ht]; auto.
Qed.

End SlotFacts.

(** ** The close of the window *)

Section CloseFacts.

Variable Frame : Type.
Variable unlink : string → gset string → outcome (gset string).

Lemma unlink_all_removes paths files :
  (∀ p fs, p ∈ fs → unlink p fs = Returns (fs ∖ {[p]})) →
  (∀ p fs, p ∉ fs → ∃ e, unlink p fs = Raises e) →
  unlink_all unlink paths files = files ∖ list_to_set paths.
Proof.
  intros Hin Hout.
  revert files. induction paths as [|p paths IH]; intros files; cbn.
  - symmetry. apply difference_empty_L.
  - destruct (decide (p ∈ files)) as [Hp|Hp].
    + rewrite (Hin p files Hp), IH. apply difference_difference_l_L.
    + destruct (Hout p files Hp) as [e ->]. rewrite IH.
      apply set_eq. intros x.
      rewrite !elem_of_difference, elem_of_union, elem_of_singleton.
      split; [|intros [H1 H2]; auto].
      intros [H1 H2]. split; [exact H1|]. intros [-> | H]; auto.
Qed.

(** X20. Closing the window, where [os.unlink] removes a file that
    exists and raises for a path that names none: every file on the list
    of temporary files is gone, a path listed twice or already gone
    does no harm, and no other file is touched; the poll timer is
    stopped, the capture device, if there is one, is released, and the
    window is otherwise as it was.  A second close removes nothing
    more. *)
Theorem closeEvent_cleans (a : App Frame) (files : gset string) :
  (∀ p fs, p ∈ fs → unlink p fs = Returns (fs ∖ {[p]})) →
  (∀ p fs, p ∉ fs → ∃ e, unlink p fs = Raises e) →
  let closed := closeEvent unlink a files in
  closed.2 = files ∖ list_to_set (temp_files (window a))
  ∧ (∀ p, p ∈ temp_files (window a) → p ∉ closed.2)
  ∧ timer_interval closed.1 = None
  ∧ window closed.1 = window a
  ∧ device_calls closed.1
    = (device_calls a ++ match cap a with
                         | Some c => [CallRelease c]
                         | None => []
                         end)%list
  ∧ (closeEvent unlink closed.1 closed.2).2 = closed.2.
Proof.
  intros Hin Hout. unfold closeEvent. cbv zeta.
  rewrite !(unlink_all_removes _ _ Hin Hout).
  destruct a as [w [c|] t cb il ci cw ch ct dc]; cbn;
    rewrite ?(unlink_all_removes _ _ Hin Hout), ?app_nil_r;
    (split; [reflexivity|]);
    (split; [intros p Hp [_ Hn]%elem_of_difference;
             apply Hn, elem_of_list_to_set, Hp|]);
    repeat split;
    apply set_eq; intros x; rewrite !elem_of_difference; tauto.
Qed.

End CloseFacts.

Section SessionFacts.

Variable Frame : Type.
Variable qpixmap_from_bgr : Frame → outcome unit.
Variable pixmap_is_null : string → bool.
Variable setText_value : json → option string.
Variable format_value : json → string.
Variable unlink : string → gset string → outcome (gset string).

(** X21. From a window that has written no image yet, through any
    events to the close of the window, where [os.unlink] removes a file
    that exists: no file that a capture wrote an image to is left. *)
Theorem close_removes_captures (es : list (Event Frame)) (a : App Frame)
    (files : gset string) :
  (∀ p fs, p ∈ fs → unlink p fs = Returns (fs ∖ {[p]})) →
  (∀ p fs, p ∉ fs → ∃ e, unlink p fs = Raises e) →
  let st := run_events qpixmap_from_bgr pixmap_is_null setText_value
              format_value es (a, []) in
  ∀ p f, (p, f) ∈ st.2 → p ∉ (closeEvent unlink st.1 files).2.
Proof.
  intros Hin Hout st p f Hpf.
  destruct (run_events_tracks Frame qpixmap_from_bgr pixmap_is_null
              setText_value format_value es a []) as [_ H].
  destruct (H p f Hpf) as [Hw|Ht]; [apply elem_of_nil in Hw; destruct Hw|].
  unfold closeEvent. cbv zeta.
  rewrite (unlink_all_removes _ _ _ Hin Hout).
  destruct (cap _); cbn; intros [_ Hn]%elem_of_difference;
    apply Hn, elem_of_list_to_set, Ht.
Qed.

End SessionFacts.

Lemma demo_unlink_removes p (fs : gset string) :
  p ∈ fs → demo_unlink p fs = Returns (fs ∖ {[p]}).
Proof. intros H. unfold demo_unlink. rewrite decide_True by exact H. reflexivity. Qed.

Lemma demo_unlink_raises p (fs : gset string) :
  p ∉ fs → ∃ e, demo_unlink p fs = Raises e.
Proof.
  intros H. unfold demo_unlink. rewrite decide_False by exact H. eauto.
Qed.

(** X20 at a running window that has one temporary file. *)
Lemma closeEvent_cleans_witness :
  (closeEvent demo_unlink app_running {["/tmp/tmp0.jpg"; "slide.png"]}).2
  = {["/tmp/tmp0.jpg"; "slide.png"]} ∖ list_to_set ["/tmp/tmp0.jpg"]
  ∧ timer_interval
      (closeEvent demo_unlink app_running {["/tmp/tmp0.jpg"; "slide.png"]}).1
    = None.
Proof.
  pose proof (closeEvent_cleans unit demo_unlink app_running
                {["/tmp/tmp0.jpg"; "slide.png"]}
                demo_unlink_removes demo_unlink_raises) as H.
  cbv zeta in H. destruct H as (Hf & _ & Ht & _).
  split; [exact Hf | exact Ht].
Defined.

(** X21 at a running window: a capture, then the load of an image, then
    the close. *)
Lemma close_removes_captures_witness :
  bool_decide
    ("/tmp/tmp1.jpg"
     ∈ (closeEvent demo_unlink
          (run_events demo_pixmap demo_is_null demo_setText demo_format
             [CaptureClicked (Returns "/tmp/tmp1.jpg") (Returns true);
              LoadClicked "leaf.png"]
             (app_running, [])).1
          {["/tmp/tmp0.jpg"; "/tmp/tmp1.jpg"; "leaf.png"]}).2)
  = false.
Proof.
  apply bool_decide_eq_false.
  refine (close_removes_captures unit demo_pixmap demo_is_null demo_setText
            demo_format demo_unlink
            [CaptureClicked (Returns "/tmp/tmp1.jpg") (Returns true);
             LoadClicked "leaf.png"]
            app_running {["/tmp/tmp0.jpg"; "/tmp/tmp1.jpg"; "leaf.png"]}
            demo_unlink_removes demo_unlink_raises "/tmp/tmp1.jpg" tt _).
  vm_compute. apply list_elem_of_here.
Defined.

(** ** identify_image: before the reply *)

Section RequestFacts.

Variable json_loads : string → option json.
Variable splitext_ext : string → string.
Variable b64encode : string → string.
Variable lim : nat.

#[local] Abbreviation identify := (identify_image json_loads splitext_ext b64encode lim).
#[local] Abbreviation ask := (ask_model splitext_ext b64encode).

Lemma get_client_MODEL environ g : MODEL (get_client environ g).2 = MODEL g.
Proof.
  unfold get_client. destruct (_client g); [reflexivity|].
  destruct (resolve_api_key environ) as [k|e]; [|reflexivity].
  destruct (truthy k); reflexivity.
Qed.

(** [identify_image] once the client is there: the file is read, the
    request is made of the model name, the prompt and the data URL, and
    the reply is interpreted. *)
Lemma identify_image_steps w g p st c :
  (get_client (environ w) g).1 = Returns c →
  identify w g p st
  = ((data ← read_bytes w p;
      responses_create w c
        {| req_model := MODEL g;
           req_text := prompt_for (_context_hint st);
           req_image_url :=
             "data:"
             ++ (if String.eqb (lower (splitext_ext p)) ".png"
                 then "image/png" else "image/jpeg")
             ++ ";base64," ++ b64encode data |})
     ≫= interpret_reply json_loads lim,
     (get_client (environ w) g).2).
Proof.
  intros Hc. unfold identify_image, ask_model.
  pose proof (get_client_MODEL (environ w) g) as Hm.
  destruct (get_client (environ w) g) as [o g']. cbn in Hc, Hm. subst o.
  rewrite Hm. unfold _b64_data_url.
  cbn [mbind outcome_bind mret outcome_ret].
  destruct (read_bytes w p); reflexivity.
Qed.

(** X22. Without a credential [identify_image] raises the [RuntimeError]
    of the secret store, whatever the file and the service would give,
    and stores no client: a later call made with the variable set gets
    its client. *)
Theorem identify_image_no_credential w g p st :
  _client g = None →
  found_in_environment (environ w) = false →
  identify w g p st
  = (Raises (RuntimeError
       "OPENAI_API_KEY not set. Set it in your shell or launcher script."), g)
  ∧ ∀ environ' k,
      environ' !! OPENAI_API_KEY = Some k → k ≠ "" →
      (get_client environ' (identify w g p st).2).1 = Returns (OpenAI k).
Proof.
  intros Hg He.
  assert (identify w g p st
          = (Raises (RuntimeError
               "OPENAI_API_KEY not set. Set it in your shell or launcher script."), g))
    as ->.
  { unfold identify_image, ask_model, get_client, resolve_api_key,
      get_openai_api_key. rewrite Hg.
    unfold found_in_environment, env_truthy in He.
    destruct (environ w !! OPENAI_API_KEY) as [k|]; [rewrite He|]; reflexivity. }
  split; [reflexivity|].
  intros environ' k Hk Hne%truthy_nonempty. cbn [snd].
  unfold get_client, resolve_api_key. rewrite Hg, Hk, Hne. cbn. rewrite Hne.
  reflexivity.
Qed.

(** X23. With a client, an exception raised when the image file is read
    or by the remote service comes out of [identify_image] as it is; the
    service is asked with the model name read at import, the prompt for
    the sample type and the image as a data URL.  The client is stored by
    then. *)
Theorem identify_image_passes_errors w g p st c e :
  (get_client (environ w) g).1 = Returns c →
  (read_bytes w p = Raises e →
   identify w g p st = (Raises e, (get_client (environ w) g).2))
  ∧ (∀ data,
       read_bytes w p = Returns data →
       responses_create w c
         {| req_model := MODEL g;
            req_text := prompt_for (_context_hint st);
            req_image_url :=
              "data:"
              ++ (if String.eqb (lower (splitext_ext p)) ".png"
                  then "image/png" else "image/jpeg")
              ++ ";base64," ++ b64encode data |} = Raises e →
       identify w g p st = (Raises e, (get_client (environ w) g).2))
  ∧ _client (identify w g p st).2 = Some c.
Proof.
  intros Hc. rewrite (identify_image_steps _ _ _ _ _ Hc).
  split; [|split].
  - intros ->. reflexivity.
  - intros data -> Hr. cbn [mbind outcome_bind]. rewrite Hr. reflexivity.
  - cbn [snd]. revert Hc. unfold get_client.
    destruct (_client g) as [c0|] eqn:E; [cbn; intros [= <-]; exact E|].
    destruct (resolve_api_key (environ w)) as [k|e0]; [|discriminate].
    destruct (truthy k); [|discriminate]. cbn. congruence.
Qed.

End RequestFacts.

(** X22 in a world without a key. *)
Lemma identify_image_no_credential_witness :
  identify_image Decoder.json_decode demo_splitext demo_b64encode 4300
    world_no_key (import_identify_image ∅) "slide.png" (Some "Pond")
  = (Raises (RuntimeError
       "OPENAI_API_KEY not set. Set it in your shell or launcher script."),
     import_identify_image ∅).
Proof.
  exact (proj1 (identify_image_no_credential Decoder.json_decode demo_splitext
                  demo_b64encode 4300 world_no_key (import_identify_image ∅)
                  "slide.png" (Some "Pond") eq_refl eq_refl)).
Defined.

(** X23 in a world where the key is set and no file can be read. *)
Lemma identify_image_passes_errors_witness :
  identify_image Decoder.json_decode demo_splitext demo_b64encode 4300
    world_no_file demo_globals "slide.png" (Some "Pond")
  = (Raises (OSError "No such file or directory"),
     (get_client demo_environ demo_globals).2).
Proof.
  exact (proj1 (identify_image_passes_errors Decoder.json_decode demo_splitext
                  demo_b64encode 4300 world_no_file demo_globals
                  "slide.png" (Some "Pond") (OpenAI "sk-demo")
                  (OSError "No such file or directory") eq_refl) eq_refl).
Defined.

(** ** Identification from the window *)

Section IdentifyWindowFacts.

Variable json_loads : string → option json.
Variable splitext_ext : string → string.
Variable b64encode : string → string.
Variable lim : nat.
Variable Frame : Type.
Variable setText_value : json → option string.
Variable format_value : json → string.

#[local] Abbreviation identify := (identify_image json_loads splitext_ext b64encode lim).
#[local] Abbreviation run' := (run json_loads splitext_ext b64encode lim).
#[local] Abbreviation deliver' := (deliver (Frame:=Frame) setText_value format_value).

Lemma on_identify_job (win : MainWindow Frame) currentText image_path :
  current_image_path win = Some image_path → image_path ≠ "" →
  on_identify currentText win
  = (showMessage "Identifying…"
       {| camera_enabled := camera_enabled win;
          last_frame := last_frame win;
          current_image_path := current_image_path win;
          temp_files := temp_files win;
          status_message := status_message win;
          loaded_path_label := loaded_path_label win;
          identify_btn_enabled := false;
          result_label := result_label win;
          conf_label := conf_label win;
          notes := notes win |},
     Some {| job_image_path := image_path; job_sample_type := currentText |}).
Proof.
  intros Hp Hne%truthy_nonempty. unfold on_identify. rewrite Hp. cbn.
  rewrite Hne. reflexivity.
Qed.

(** X24. An identification that fails: the click disables Identify and
    starts the job, the job emits the error signal with the text of the
    exception, and the slot shows it after "Error:", enables Identify again
    and reports "Failed."; the name and the confidence shown before
    stay. *)
Theorem identify_failure_shown (w : World) (g : Globals)
    (win : MainWindow Frame) (currentText image_path : string) (e : exn) :
  current_image_path win = Some image_path → image_path ≠ "" →
  (identify w g image_path (Some currentText)).1 = Raises e →
  ∃ job win',
    (on_identify currentText win).2 = Some job
    ∧ identify_btn_enabled (on_identify currentText win).1 = false
    ∧ (run' w g job).1 = error (exn_message e)
    ∧ deliver' (run' w g job).1 (on_identify currentText win).1 = (Some tt, win')
    ∧ notes win' = "Error:" ++ nl ++ exn_message e
    ∧ identify_btn_enabled win' = true
    ∧ status_message win' = "Failed."
    ∧ result_label win' = result_label win
    ∧ conf_label win' = conf_label win
    ∧ current_image_path win' = Some image_path.
Proof.
  intros Hp Hne He. rewrite (on_identify_job _ _ _ Hp Hne).
  eexists. eexists. split; [reflexivity|]. split; [reflexivity|].
  unfold run. cbn [job_image_path job_sample_type].
  destruct (identify w g image_path (Some currentText)) as [o g'].
  cbn in He. subst o. cbn.
  split; [reflexivity|]. split; [reflexivity|]. repeat split. exact Hp.
Qed.

(** X25. An identification that succeeds with a name that is a text: the
    slot shows the name and the confidence, a whole number from 0 to
    100, enables Identify again and reports "Done.". *)
Theorem identify_success_shown (w : World) (g : Globals)
    (win : MainWindow Frame) (currentText image_path name : string)
    (r : gmap string json) :
  current_image_path win = Some image_path → image_path ≠ "" →
  (identify w g image_path (Some currentText)).1 = Returns r →
  r !! "best_guess_name" = Some (JString name) →
  setText_value (JString name) = Some name →
  (∀ z, format_value (JInt z) = pretty z) →
  ∃ job win' c,
    (on_identify currentText win).2 = Some job
    ∧ (run' w g job).1 = success r
    ∧ deliver' (run' w g job).1 (on_identify currentText win).1 = (Some tt, win')
    ∧ result_label win' = name
    ∧ (0 ≤ c ≤ 100)%Z
    ∧ conf_label win' = "Confidence: " ++ pretty c ++ "/100"
    ∧ identify_btn_enabled win' = true
    ∧ status_message win' = "Done.".
Proof.
  intros Hp Hne Hr Hn Hs Hf. rewrite (on_identify_job _ _ _ Hp Hne).
  destruct (identify_image_returns _ _ _ _ _ _ _ _ _ Hr)
    as (resp & d & _ & _ & Hd).
  eexists. eexists. exists (confidence_of lim d).
  split; [reflexivity|].
  unfold run. cbn [job_image_path job_sample_type].
  destruct (identify w g image_path (Some currentText)) as [o g'].
  cbn in Hr. subst o. cbn [fst deliver].
  split; [reflexivity|].
  unfold _on_identify_success. rewrite Hn. cbn [default from_option id].
  rewrite Hs.
  split; [reflexivity|]. cbn [result_label conf_label identify_btn_enabled status_message].
  split; [reflexivity|]. split; [apply confidence_of_range|].
  split; [|split; reflexivity].
  rewrite Hd, sanitize_lookup. case_decide; [|congruence].
  cbn [default from_option id]. rewrite Hf. reflexivity.
Qed.

(** X26. A reply whose name is not a text: [identify_image] passes the
    name on as it is, [setText] refuses it, the slot ends there, and
    Identify stays disabled. *)
Theorem identify_name_not_text (w : World) (g : Globals)
    (win : MainWindow Frame) (currentText image_path : string)
    (resp : Response) (d : gmap string json) (v : json) :
  current_image_path win = Some image_path → image_path ≠ "" →
  (ask_model splitext_ext b64encode w g image_path (Some currentText)).1
  = Returns resp →
  json_loads (cleaned_text resp) = Some (JObject d) →
  d !! "best_guess_name" = Some v →
  setText_value v = None →
  ∃ job r,
    (on_identify currentText win).2 = Some job
    ∧ (run' w g job).1 = success r
    ∧ r !! "best_guess_name" = Some v
    ∧ deliver' (run' w g job).1 (on_identify currentText win).1
      = (None, (on_identify currentText win).1)
    ∧ identify_btn_enabled (on_identify currentText win).1 = false.
Proof.
  intros Hp Hne Ha Hd Hv Hs. rewrite (on_identify_job _ _ _ Hp Hne).
  pose proof (identify_image_reply json_loads splitext_ext b64encode lim
                _ _ _ _ _ Ha) as Hr.
  rewrite (interpret_reply_object _ _ _ _ Hd) in Hr.
  eexists. exists (sanitize lim d). split; [reflexivity|].
  unfold run. cbn [job_image_path job_sample_type].
  destruct (identify w g image_path (Some currentText)) as [o g'].
  cbn in Hr. subst o. cbn [fst deliver].
  split; [reflexivity|].
  assert (sanitize lim d !! "best_guess_name" = Some v) as Hn.
  { rewrite sanitize_lookup. cbn. rewrite Hv. reflexivity. }
  split; [exact Hn|].
  unfold _on_identify_success. rewrite Hn. cbn [default from_option id].
  rewrite Hs. split; reflexivity.
Qed.

(** X27. Identify is disabled while a job runs, but loading an image
    enables it again before the job has answered: a second click starts a
    second job, for the image loaded. *)
Theorem identify_reenabled_by_load (pixmap_is_null : string → bool)
    (a : App Frame) (currentText image_path file_path : string) :
  current_image_path (window a) = Some image_path → image_path ≠ "" →
  file_path ≠ "" →
  let a1 := set_window (on_identify currentText (window a)).1 a in
  let a2 := on_load_image pixmap_is_null file_path a1 in
  (on_identify currentText (window a)).2
  = Some {| job_image_path := image_path; job_sample_type := currentText |}
  ∧ identify_btn_enabled (window a1) = false
  ∧ identify_btn_enabled (window a2) = true
  ∧ (on_identify currentText (window a2)).2
    = Some {| job_image_path := file_path; job_sample_type := currentText |}.
Proof.
  intros Hp Hne Hf. cbv zeta. rewrite (on_identify_job _ _ _ Hp Hne).
  apply truthy_nonempty in Hf.
  destruct a as [win c0 t cb il ci cw ch ct dc].
  unfold on_load_image. rewrite Hf. cbn.
  split; [reflexivity|]. split; [reflexivity|].
  destruct (camera_enabled win); cbn; (split; [reflexivity|]);
    unfold on_identify; cbn; rewrite Hf; reflexivity.
Qed.

End IdentifyWindowFacts.

(** X24 at a running window, in a world without a key. *)
Lemma identify_failure_shown_witness :
  ∃ job win',
    (on_identify "Pond" (window app_running)).2 = Some job
    ∧ identify_btn_enabled (on_identify "Pond" (window app_running)).1 = false
    ∧ (run Decoder.json_decode demo_splitext demo_b64encode 4300
         world_no_key (import_identify_image ∅) job).1
      = error "OPENAI_API_KEY not set. Set it in your shell or launcher script."
    ∧ deliver demo_setText demo_format
        (run Decoder.json_decode demo_splitext demo_b64encode 4300
           world_no_key (import_identify_image ∅) job).1
        (on_identify "Pond" (window app_running)).1
      = (Some tt, win')
    ∧ notes win'
      = "Error:" ++ nl
        ++ "OPENAI_API_KEY not set. Set it in your shell or launcher script."
    ∧ identify_btn_enabled win' = true.
Proof.
  destruct (identify_failure_shown Decoder.json_decode demo_splitext
              demo_b64encode 4300 unit demo_setText demo_format
              world_no_key (import_identify_image ∅) (window app_running)
              "Pond" "slide.png"
              (RuntimeError
                 "OPENAI_API_KEY not set. Set it in your shell or launcher script.")
              eq_refl ltac:(discriminate) eq_refl)
    as (job & win' & H1 & H2 & H3 & H4 & H5 & H6 & _).
  exists job, win'.
  split; [exact H1|]. split; [exact H2|]. split; [exact H3|].
  split; [exact H4|]. split; [exact H5 | exact H6].
Defined.

(** X25 at a running window, for the reply of the example. *)
Lemma identify_success_shown_witness :
  ∃ job win' c,
    (on_identify "Pond" (window app_running)).2 = Some job
    ∧ deliver demo_setText demo_format
        (run Decoder.json_decode demo_splitext demo_b64encode 4300
           (demo_world (Some rotifer_reply)) demo_globals job).1
        (on_identify "Pond" (window app_running)).1
      = (Some tt, win')
    ∧ result_label win' = "Rotifer"
    ∧ (0 ≤ c ≤ 100)%Z
    ∧ conf_label win' = "Confidence: " ++ pretty c ++ "/100".
Proof.
  assert ((identify_image Decoder.json_decode demo_splitext demo_b64encode 4300
             (demo_world (Some rotifer_reply)) demo_globals "slide.png"
             (Some "Pond")).1 = Returns rotifer_result) as Hr
    by (vm_compute; reflexivity).
  assert (rotifer_result !! "best_guess_name" = Some (JString "Rotifer")) as Hn
    by (vm_compute; reflexivity).
  destruct (identify_success_shown Decoder.json_decode demo_splitext
              demo_b64encode 4300 unit demo_setText demo_format
              (demo_world (Some rotifer_reply)) demo_globals (window app_running)
              "Pond" "slide.png" "Rotifer" rotifer_result
              eq_refl ltac:(discriminate) Hr Hn eq_refl (λ z, eq_refl))
    as (job & win' & c & H1 & _ & H3 & H4 & H5 & H6 & _).
  exists job, win', c.
  split; [exact H1|]. split; [exact H3|]. split; [exact H4|].
  split; [exact H5 | exact H6].
Defined.

(** X26 at a running window, for a reply whose name is the number 5. *)
Lemma identify_name_not_text_witness :
  ∃ job r,
    (on_identify "Pond" (window app_running)).2 = Some job
    ∧ (run Decoder.json_decode demo_splitext demo_b64encode 4300
         (demo_world (Some number_name_json)) demo_globals job).1
      = success r
    ∧ r !! "best_guess_name" = Some (JInt 5)
    ∧ deliver demo_setText demo_format
        (run Decoder.json_decode demo_splitext demo_b64encode 4300
           (demo_world (Some number_name_json)) demo_globals job).1
        (on_identify "Pond" (window app_running)).1
      = (None, (on_identify "Pond" (window app_running)).1)
    ∧ identify_btn_enabled (on_identify "Pond" (window app_running)).1 = false.
Proof.
  assert (Decoder.json_decode
            (cleaned_text {| output_text := Some number_name_json |})
          = Some (JObject number_name_dict)) as Hd
    by (vm_compute; reflexivity).
  assert (number_name_dict !! "best_guess_name" = Some (JInt 5)) as Hv
    by (vm_compute; reflexivity).
  exact (identify_name_not_text Decoder.json_decode demo_splitext
           demo_b64encode 4300 unit demo_setText demo_format
           (demo_world (Some number_name_json)) demo_globals (window app_running)
           "Pond" "slide.png" {| output_text := Some number_name_json |}
           number_name_dict (JInt 5)
           eq_refl ltac:(discriminate) eq_refl Hd Hv eq_refl).
Defined.

(** X27 at a running window. *)
Lemma identify_reenabled_by_load_witness :
  identify_btn_enabled
    (window (on_load_image demo_is_null "leaf.png"
               (set_window (on_identify "Pond" (window app_running)).1
                  app_running)))
  = true
  ∧ (on_identify "Pond"
       (window (on_load_image demo_is_null "leaf.png"
                  (set_window (on_identify "Pond" (window app_running)).1
                     app_running)))).2
    = Some {| job_image_path := "leaf.png"; job_sample_type := "Pond" |}.
Proof.
  pose proof (identify_reenabled_by_load unit demo_is_null app_running
                "Pond" "slide.png" "leaf.png"
                eq_refl ltac:(discriminate) ltac:(discriminate)) as H.
  cbv zeta in H. destruct H as (_ & _ & H3 & H4).
  split; [exact H3 | exact H4].
Defined.

(** ** More on the code fence and the sanitized result *)

Lemma str_app_nil_r (s : string) : s ++ "" = s.
Proof. induction s as [|c r IH]; str_simpl; [reflexivity | rewrite IH; reflexivity]. Qed.

Lemma strip_fence_start x : strip (FENCE ++ x) = FENCE ++ rstrip x.
Proof.
  unfold strip. rewrite rstrip_app.
  destruct (rstrip x) as [|c r]; reflexivity.
Qed.

Lemma contains_rstrip c x : contains c x = false → contains c (rstrip x) = false.
Proof.
  induction x as [|a r IH]; [reflexivity|].
  simpl. intros [Ha Hr]%orb_false_elim.
  destruct (rstrip r) as [|c' r'] eqn:E.
  - destruct (isspace a); simpl; rewrite ?Ha; reflexivity.
  - simpl in IH |- *. rewrite Ha. exact (IH Hr).
Qed.

Lemma rstrip_idem s : rstrip (rstrip s) = rstrip s.
Proof.
  induction s as [|c r IH]; [reflexivity|].
  simpl. destruct (rstrip r) as [|c' r'] eqn:E.
  - destruct (isspace c) eqn:Hc; simpl; rewrite ?Hc; reflexivity.
  - simpl in IH |- *. rewrite IH. reflexivity.
Qed.

(** X28. A reply that opens with a fence: the rest of the first line,
    whatever it holds, is dropped with the fence, a language tag of any
    name as well as none.  The closing fence is dropped when it is
    there, and a reply that ends without one is read all the same.  What
    is left is the body without the white space around it. *)
Theorem strip_code_fence_first_line (tag body : string) :
  contains LF tag = false →
  startswith (lower (strip body)) "json" = false →
  _strip_code_fence (Some (FENCE ++ tag ++ nl ++ body ++ nl ++ FENCE))
  = strip body
  ∧ (endswith (rstrip body) FENCE = false →
     _strip_code_fence (Some (FENCE ++ tag ++ nl ++ body)) = strip body).
Proof.
  intros Htag Hjson. split.
  - assert (startswith (lower (strip (body ++ nl))) "json" = false) as Hj
      by (rewrite strip_app_nl; exact Hjson).
    pose proof (strip_code_fence_block "" tag (body ++ nl) ""
                  eq_refl eq_refl Htag Hj) as Hb.
    rewrite app_nil_l, str_app_nil_r, strip_app_nl, !app_assoc in Hb.
    rewrite <- Hb. reflexivity.
  - intros Hend. unfold _strip_code_fence.
    rewrite or_else_empty, strip_fence_start.
    change (startswith (FENCE ++ rstrip (tag ++ nl ++ body)) FENCE) with true.
    cbv iota.
    rewrite (rstrip_app tag), (rstrip_app nl).
    destruct (rstrip body) as [|c r] eqn:E.
    + change (rstrip nl) with "". cbv iota.
      rewrite contains_app, (contains_rstrip _ _ Htag).
      change (contains LF FENCE) with false. cbn.
      unfold strip. rewrite E. reflexivity.
    + change (nl ++ String c r) with (String LF (String c r)). cbv iota.
      rewrite <- (app_assoc FENCE tag).
      rewrite (contains_app LF (FENCE ++ tag)).
      change (contains LF (String LF (String c r))) with true.
      rewrite orb_true_r. cbv iota.
      rewrite split1_app
        by (rewrite contains_app, Htag; reflexivity).
      simpl nth. rewrite <- E in Hend |- *. rewrite rstrip_idem, Hend.
      assert (strip (rstrip body) = strip body) as ->
        by (unfold strip; rewrite rstrip_idem; reflexivity).
      rewrite Hjson. reflexivity.
Qed.

(** X28 at the reply of the example under the tag "javascript", and cut
    off before the closing fence. *)
Lemma strip_code_fence_first_line_witness :
  _strip_code_fence
    (Some (FENCE ++ "javascript" ++ nl ++ rotifer_json ++ nl ++ FENCE))
  = strip rotifer_json
  ∧ _strip_code_fence (Some (FENCE ++ "javascript" ++ nl ++ rotifer_json))
    = strip rotifer_json.
Proof.
  destruct (strip_code_fence_first_line "javascript" rotifer_json
              eq_refl eq_refl) as [H1 H2].
  split; [exact H1 | exact (H2 eq_refl)].
Defined.

(** X29. The checks of [identify_image] change nothing of a result that
    has gone through them: the four keys are there, and the confidence is
    a whole number from 0 to 100 already. *)
Theorem sanitize_idempotent (lim : nat) (d : gmap string json) :
  sanitize lim (sanitize lim d) = sanitize lim d.
Proof.
  apply map_eq. intros k. rewrite !sanitize_lookup.
  case_decide as Hk.
  - f_equal. f_equal. unfold confidence_of at 1.
    rewrite sanitize_lookup. case_decide; [|congruence].
    unfold int_or_zero. cbn. apply clamp_id, confidence_of_range.
  - destruct (d !! k) as [v|] eqn:E; [reflexivity|].
    destruct (DEFAULTS !! k); reflexivity.
Qed.
